(** * A Flask API scaffold: exception handler, logging set-up, query models

    Shallow embedding of [src/app.py] and [src/models/query_model/__init__.py].

    Python values are an inductive type, dictionaries with string keys are
    [gmap string _], a dictionary written as a literal is an association list
    in the order of the literal, exceptions are the [Raise] branch of a result
    type, and calls into Flask, Flask-RESTful, [logging] and the alert hook
    are recorded as a trace of effects or as updates of the object they
    mutate. *)

From Stdlib Require Import ZArith List String Ascii.
From stdpp Require Import base option list gmap strings pretty.

Local Open Scope string_scope.
Local Open Scope list_scope.
Local Open Scope Z_scope.

(** ** Python values and exceptions *)

Module Py.

(** The scalar values that travel through the two modules: status codes,
    request parameters, enumeration members.  Floats and containers are not
    represented. *)
Inductive PyVal : Type :=
| PyNone
| PyBool (b : bool)
| PyInt (n : Z)
| PyStr (s : string).

(** [str(v)]. *)
Definition py_str (v : PyVal) : string :=
  match v with
  | PyNone => "None"
  | PyBool true => "True"
  | PyBool false => "False"
  | PyInt n => pretty n
  | PyStr s => s
  end.

(** [a == b]; [bool] is a subclass of [int], so [True == 1]. *)
Definition py_eq (a b : PyVal) : bool :=
  match a, b with
  | PyNone, PyNone => true
  | PyBool x, PyBool y => Bool.eqb x y
  | PyInt x, PyInt y => (x =? y)
  | PyBool x, PyInt y => ((if x then 1 else 0) =? y)
  | PyInt x, PyBool y => (x =? (if y then 1 else 0))
  | PyStr x, PyStr y => String.eqb x y
  | _, _ => false
  end.

(** [v in t] for a tuple [t]. *)
Definition py_in (v : PyVal) (t : list PyVal) : bool := existsb (py_eq v) t.

(** Truth value of a tuple: [bool(t)]. *)
Definition tuple_truthy (t : list PyVal) : bool :=
  match t with [] => false | _ :: _ => true end.

(** [v is None]. *)
Definition is_None (v : PyVal) : bool :=
  match v with PyNone => true | _ => false end.

(** Keyword arguments, [reqparse] namespaces and [__storage__]. *)
Abbreviation Kwargs := (gmap string PyVal).

(** The exceptions the query-model module can raise itself, and [Raised] for
    whatever a callee outside the module raises. *)
Inductive exn : Type :=
| AttributeError (attr : string)
| NameError (name : string)
| TypeError (msg : string)
| InvalidArgumentException (field_name : string) (enum_values : list PyVal)
| Raised (what : string).

Inductive result (A : Type) : Type :=
| Ok (a : A)
| Raise (e : exn).
Arguments Ok {A} a.
Arguments Raise {A} e.

Definition bind {A B} (m : result A) (k : A -> result B) : result B :=
  match m with
  | Ok a => k a
  | Raise e => Raise e
  end.

(** The value of a keyword parameter: the one passed, or the default of the
    signature when the caller leaves it out. *)
Definition keyword {A} (dflt : A) (passed : option A) : A :=
  match passed with
  | Some a => a
  | None => dflt
  end.

Definition is_Ok {A} (m : result A) : bool :=
  match m with Ok _ => true | Raise _ => false end.

End Py.

Import Py.

Declare Scope py_scope.
Delimit Scope py_scope with py.
Notation "x <- m ;; k" := (bind m (fun x => k))
  (at level 100, m at next level, right associativity) : py_scope.
Notation "'do' m ;; k" := (bind m (fun _ => k))
  (at level 100, m at next level, right associativity) : py_scope.
Local Open Scope py_scope.

(** ** [str.split] and [str.join] on the newline character *)

Module Str.

Definition nl : ascii := "010"%char.

(** [s.split("\n")]: the pieces between newlines, empty pieces kept, so the
    result is never empty. *)
Fixpoint split_nl (s : string) : list string :=
  match s with
  | EmptyString => [""]
  | String c rest =>
      match split_nl rest with
      | cur :: more =>
          if Ascii.eqb c nl then "" :: cur :: more else String c cur :: more
      | [] => [String c ""]
      end
  end.

(** ["\n".join(l)]. *)
Fixpoint join_nl (l : list string) : string :=
  match l with
  | [] => ""
  | [x] => x
  | x :: rest => x +:+ String nl (join_nl rest)
  end.

Fixpoint has_nl (s : string) : bool :=
  match s with
  | EmptyString => false
  | String c rest => Ascii.eqb c nl || has_nl rest
  end.

(** [s.count("\n")]. *)
Fixpoint count_nl (s : string) : nat :=
  match s with
  | EmptyString => O
  | String c rest => if Ascii.eqb c nl then S (count_nl rest) else count_nl rest
  end.

End Str.

(** ** [src/app.py] *)

Module App.

(** *** The global exception handler *)

(** What the two [isinstance] tests of the module can tell about an
    exception: an instance of [werkzeug.exceptions.HTTPException], of the
    project's [ServerException], or of neither. *)
Inductive ExcKind : Type :=
| HTTPException
| ServerException
| OtherException.

(** An exception object, by what the handler reads of it: [e.code], [str(e)]
    and [repr(e)].  [exc_code] of an [OtherException] is whatever attribute of
    that name the object may carry; the handler never reads it. *)
Record PyExc : Type := {
  exc_kind : ExcKind;
  exc_code : PyVal;
  exc_str : string;
  exc_repr : string;
}.

(** [flask.request], by the three attributes the handler reads.  [json] is a
    property that parses the body when it is read: it gives the parsed value,
    [None] for no body, or aborts the request with an error of its own. *)
Record Request : Type := {
  url : string;
  args : list (string * string);
  json : result (option string);
}.

(** The ambient state of a call of the handler: the request being served,
    the exception being handled as [traceback.format_exc(limit)] prints it,
    and what the alert hook of [exceptions.send_alert] does with a call: it
    returns, or raises. *)
Record Ctx : Type := {
  request : Request;
  format_exc : nat -> string;
  alert_hook : string -> list (string * string) -> option string -> string ->
               list string -> result unit;
}.

(** The calls the handler makes that leave the process or the log. *)
Inductive Effect : Type :=
| logger_exception (e : PyExc)
| send_dingding_alert (request_url : string) (request_args : list (string * string))
    (request_json : option string) (repr_e : string) (exc : list string).

(** Values of the JSON body the handler returns. *)
Inductive BodyVal : Type :=
| BVal (v : PyVal)
| BLines (l : list string).

(** The body is a dict literal: keys in the order written. *)
Abbreviation Body := (list (string * BodyVal)).

(** [isinstance(e, (HTTPException, ServerException))]. *)
Definition isinstance_http_or_server (e : PyExc) : bool :=
  match exc_kind e with
  | HTTPException | ServerException => true
  | OtherException => false
  end.

(** Lines 65-67: the status code the handler settles on. *)
Definition resolved_code (e : PyExc) : PyVal :=
  let code := PyInt 500 in
  if isinstance_http_or_server e then exc_code e else code.

(** Lines 64-73: the calls made, and the pair returned or the error raised.
    On the 500 path the arguments of the alert are evaluated first, so a
    [request.json] that raises ends the handler before the hook is called,
    and a hook that raises ends it before anything is returned. *)
Definition handle_exception (ctx : Ctx) (e : PyExc)
    : list Effect * result (Body * PyVal) :=
  let code := resolved_code e in
  let exc := map (fun v => v) (Str.split_nl (format_exc ctx 10)) in
  let response :=
    ([("error_code", BVal code); ("error_msg", BVal (PyStr (exc_str e)));
      ("traceback", BLines exc)], code) in
  if String.eqb (py_str code) "500" then
    match json (request ctx) with
    | Raise x => ([logger_exception e], Raise x)
    | Ok request_json =>
        let trace :=
          [logger_exception e;
           send_dingding_alert (url (request ctx)) (args (request ctx))
             request_json (exc_repr e) exc] in
        match alert_hook ctx (url (request ctx)) (args (request ctx))
                request_json (exc_repr e) exc with
        | Raise x => (trace, Raise x)
        | Ok _ => (trace, Ok response)
        end
    end
  else ([logger_exception e], Ok response).

Definition is_alert (x : Effect) : bool :=
  match x with send_dingding_alert _ _ _ _ _ => true | _ => false end.

(** Whether a trace contains a call of [send_dingding_alert]. *)
Definition alert_sent (tr : list Effect) : bool := existsb is_alert tr.

(** [body.get(key)]. *)
Definition body_get (body : Body) (key : string) : option BodyVal :=
  snd <$> List.find (fun kv => String.eqb (fst kv) key) body.

(** A status code that stands for 500: the integer, or the text that [str]
    leaves as it is. *)
Definition is_status_500 (code : PyVal) : Prop :=
  code = PyInt 500 \/ code = PyStr "500".

(** *** The JSON encoder *)

Record Date : Type := { year : Z; month : Z; day : Z }.

Record DateTime : Type := {
  dt_date : Date;
  hour : Z;
  minute : Z;
  second : Z;
  microsecond : Z;
}.

(** [traceback.FrameSummary]. *)
Record FrameSummary : Type := {
  filename : string;
  lineno : Z;
  name : string;
  line : string;
}.

(** The values [JsonEncoder.default] is asked about, by the class the
    [isinstance] tests see; [VObject] is an instance of any other class. *)
Inductive JsonInput : Type :=
| VDatetime (d : DateTime)
| VDate (d : Date)
| VFrameSummary (f : FrameSummary)
| VObject (class_name : string).

(** [n] zeros. *)
Fixpoint zeros (n : nat) : string :=
  match n with
  | O => ""
  | S n => String "0" (zeros n)
  end.

(** [s.zfill(width)]: zeros in front, up to [width] characters. *)
Definition zfill (width : nat) (s : string) : string :=
  zeros (width - String.length s) +:+ s.

(** Decimal rendering padded with zeros to [width] digits, as [%02d]. *)
Definition pad (width : nat) (n : Z) : string := zfill width (pretty n).

(** The six fields [strftime] reads. *)
Record struct_time : Type := {
  tm_year : Z; tm_mon : Z; tm_mday : Z; tm_hour : Z; tm_min : Z; tm_sec : Z;
}.

(** The C library prints [%Y] as the year in decimal, without padding, and
    the other five fields on two digits. *)
Definition directive (d : ascii) (t : struct_time) : string :=
  if Ascii.eqb d "Y" then pretty (tm_year t)
  else if Ascii.eqb d "m" then pad 2 (tm_mon t)
  else if Ascii.eqb d "d" then pad 2 (tm_mday t)
  else if Ascii.eqb d "H" then pad 2 (tm_hour t)
  else if Ascii.eqb d "M" then pad 2 (tm_min t)
  else if Ascii.eqb d "S" then pad 2 (tm_sec t)
  else String "%" (String d "").

(** [strftime] for the directives the module uses; other text is copied. *)
Fixpoint strftime (fmt : string) (t : struct_time) : string :=
  match fmt with
  | EmptyString => ""
  | String c rest =>
      if Ascii.eqb c "%" then
        match rest with
        | String d rest' => directive d t +:+ strftime rest' t
        | EmptyString => "%"
        end
      else String c (strftime rest t)
  end.

Definition datetime_timetuple (d : DateTime) : struct_time :=
  {| tm_year := year (dt_date d); tm_mon := month (dt_date d); tm_mday := day (dt_date d);
     tm_hour := hour d; tm_min := minute d; tm_sec := second d |}.

(** A [date] has no time of day: [strftime] prints midnight. *)
Definition date_timetuple (d : Date) : struct_time :=
  {| tm_year := year d; tm_mon := month d; tm_mday := day d;
     tm_hour := 0; tm_min := 0; tm_sec := 0 |}.

(** [value.strftime(fmt)]; only dates and datetimes have the method. *)
Definition py_strftime (value : JsonInput) (fmt : string) : result string :=
  match value with
  | VDatetime d => Ok (strftime fmt (datetime_timetuple d))
  | VDate d => Ok (strftime fmt (date_timetuple d))
  | _ => Raise (AttributeError "strftime")
  end.

(** [str] of a [FrameSummary] is its [repr]. *)
Definition FrameSummary_str (f : FrameSummary) : string :=
  "<FrameSummary file " +:+ filename f +:+ ", line " +:+ pretty (lineno f)
    +:+ " in " +:+ name f +:+ ">".

Definition type_name (value : JsonInput) : string :=
  match value with
  | VDatetime _ => "datetime"
  | VDate _ => "date"
  | VFrameSummary _ => "FrameSummary"
  | VObject n => n
  end.

(** [str(value)]: the ISO rendering of a date or a naive datetime, the
    [repr] of anything else. *)
Definition py_str_obj (value : JsonInput) : string :=
  match value with
  | VFrameSummary f => FrameSummary_str f
  | VDatetime d =>
      strftime "%Y-%m-%d %H:%M:%S" (datetime_timetuple d)
        +:+ (if microsecond d =? 0 then "" else "." +:+ pad 6 (microsecond d))
  | VDate d => strftime "%Y-%m-%d" (date_timetuple d)
  | VObject n => "<" +:+ n +:+ " object>"
  end.

Definition isinstance_datetime_or_date (value : JsonInput) : bool :=
  match value with VDatetime _ | VDate _ => true | _ => false end.

Definition isinstance_FrameSummary (value : JsonInput) : bool :=
  match value with VFrameSummary _ => true | _ => false end.

(** [json.JSONEncoder.default]: the base class refuses every object. *)
Definition JSONEncoder_default (o : JsonInput) : result string :=
  Raise (TypeError ("Object of type " +:+ type_name o +:+ " is not JSON serializable")).

(** [JsonEncoder.default], lines 27-33. *)
Definition JsonEncoder_default (value : JsonInput) : result string :=
  if isinstance_datetime_or_date value then py_strftime value "%Y-%m-%d %H:%M:%S"
  else if isinstance_FrameSummary value then Ok (py_str_obj value)
  else JSONEncoder_default value.

(** The encoder classes an application can carry. *)
Inductive EncoderClass : Type :=
| JSONEncoder
| JsonEncoder.

(** The [default] method an encoder class resolves to. *)
Definition encoder_default (c : EncoderClass) : JsonInput -> result string :=
  match c with
  | JSONEncoder => JSONEncoder_default
  | JsonEncoder => JsonEncoder_default
  end.

(** *** The application factory *)

(** Exception classes a handler can be registered for. *)
Inductive HandledClass : Type :=
| Exception_class
| HTTPException_class
| ServerException_class.

(** [isinstance(e, cls)]: every exception the handler can meet is an
    [Exception]. *)
Definition isinstance_of (e : PyExc) (cls : HandledClass) : bool :=
  match cls, exc_kind e with
  | Exception_class, _ => true
  | HTTPException_class, HTTPException => true
  | ServerException_class, ServerException => true
  | _, _ => false
  end.

Abbreviation Handler := (Ctx -> PyExc -> list Effect * result (Body * PyVal)).

(** Extensions bound to the application. *)
Inductive Extension : Type :=
| CORS (supports_credentials : bool)
| SQLAlchemy_db.

Section Factory.

(** Blueprints are opaque; [all_blueprints] comes from the [blueprints]
    package and the two settings from [settings], none of which is part of
    the module. *)
Variable Blueprint : Type.
Variable all_blueprints : list Blueprint.
Variable SQLALCHEMY_DATABASE_URI : PyVal.
Variable SQLALCHEMY_TRACK_MODIFICATIONS : PyVal.
Variable module_name : string.

(** A [Flask] object, by the parts this module writes. *)
Record Flask : Type := {
  import_name : string;
  config : gmap string PyVal;
  blueprints : list Blueprint;
  error_handler_spec : list (HandledClass * Handler);
  json_encoder : EncoderClass;
  extensions : list Extension;
}.

Definition Flask_new (import_name : string) : Flask :=
  {| import_name := import_name; config := ∅; blueprints := [];
     error_handler_spec := []; json_encoder := JSONEncoder; extensions := [] |}.

Definition add_extension (x : Extension) (app : Flask) : Flask :=
  {| import_name := import_name app; config := config app; blueprints := blueprints app;
     error_handler_spec := error_handler_spec app; json_encoder := json_encoder app;
     extensions := extensions app ++ [x] |}.

(** [app.config[key] = value]. *)
Definition set_config (key : string) (value : PyVal) (app : Flask) : Flask :=
  {| import_name := import_name app; config := <[key := value]> (config app);
     blueprints := blueprints app; error_handler_spec := error_handler_spec app;
     json_encoder := json_encoder app; extensions := extensions app |}.

(** [app.register_blueprint(blueprint)]: the blueprint joins those already
    registered, after them. *)
Definition register_blueprint (app : Flask) (blueprint : Blueprint) : Flask :=
  {| import_name := import_name app; config := config app;
     blueprints := blueprints app ++ [blueprint];
     error_handler_spec := error_handler_spec app; json_encoder := json_encoder app;
     extensions := extensions app |}.

(** [app.register_error_handler(cls, f)]. *)
Definition register_error_handler (cls : HandledClass) (f : Handler) (app : Flask) : Flask :=
  {| import_name := import_name app; config := config app; blueprints := blueprints app;
     error_handler_spec := error_handler_spec app ++ [(cls, f)];
     json_encoder := json_encoder app; extensions := extensions app |}.

(** [app.json_encoder = cls]. *)
Definition set_json_encoder (cls : EncoderClass) (app : Flask) : Flask :=
  {| import_name := import_name app; config := config app; blueprints := blueprints app;
     error_handler_spec := error_handler_spec app; json_encoder := cls;
     extensions := extensions app |}.

(** Lines 57-61: the loop over [all_blueprints]. *)
Definition register_blueprints (app : Flask) : Flask :=
  fold_left register_blueprint all_blueprints app.

(** Lines 45-54. *)
Definition init_config (app : Flask) : Flask :=
  let app := set_config "SQLALCHEMY_DATABASE_URI" SQLALCHEMY_DATABASE_URI app in
  let app := set_config "SQLALCHEMY_TRACK_MODIFICATIONS" SQLALCHEMY_TRACK_MODIFICATIONS app in
  let app := register_blueprints app in
  let app := register_error_handler Exception_class handle_exception app in
  add_extension SQLAlchemy_db app.

(** Lines 36-42. *)
Definition create_app : Flask :=
  let app := Flask_new module_name in
  let app := add_extension (CORS true) app in
  let app := init_config app in
  set_json_encoder JsonEncoder app.

(** The handler Flask calls for [e]: the first one registered for a class
    that [e] is an instance of. *)
Definition find_error_handler (app : Flask) (e : PyExc) : option Handler :=
  snd <$> List.find (fun '(cls, _) => isinstance_of e cls) (error_handler_spec app).

End Factory.

Arguments import_name {Blueprint} _.
Arguments config {Blueprint} _.
Arguments blueprints {Blueprint} _.
Arguments error_handler_spec {Blueprint} _.
Arguments json_encoder {Blueprint} _.
Arguments extensions {Blueprint} _.
Arguments find_error_handler {Blueprint} _ _.

(** *** Logging set-up *)

(** One entry of the ['handlers'] table; the keys a stream handler does not
    have are [None]. *)
Record HandlerConfig : Type := {
  handler_level : string;
  handler_formatter : string;
  handler_class : string;
  handler_filename : option string;
  handler_when : option string;
  handler_interval : option Z;
  handler_encoding : option string;
}.

(** One entry of the ['loggers'] table. *)
Record LoggerConfig : Type := {
  logger_handlers : list string;
  logger_level : string;
  logger_propagate : bool;
}.

(** The dictionary handed to [dictConfig]. *)
Record LoggingConfig : Type := {
  version : Z;
  disable_existing_loggers : bool;
  formatters : list (string * string);
  handlers : list (string * HandlerConfig);
  loggers : list (string * LoggerConfig);
}.

(** What [init_logging] does to its surroundings. *)
Inductive LogEffect : Type :=
| os_makedirs (dir_name : string)
| dictConfig (config : LoggingConfig)
| patch_wsgi_handler.

(** Line 77. *)
Definition log_level (NAMESPACE : PyVal) : string :=
  if py_eq NAMESPACE (PyStr "PRODUCTION") then "INFO" else "DEBUG".

Definition rotating_file_handler (level formatter filename : string) : HandlerConfig :=
  {| handler_level := level; handler_formatter := formatter;
     handler_class := "logging.handlers.TimedRotatingFileHandler";
     handler_filename := Some filename; handler_when := Some "midnight";
     handler_interval := Some 1; handler_encoding := Some "utf8" |}.

Definition stream_handler (level formatter : string) : HandlerConfig :=
  {| handler_level := level; handler_formatter := formatter;
     handler_class := "logging.StreamHandler";
     handler_filename := None; handler_when := None;
     handler_interval := None; handler_encoding := None |}.

(** Lines 82-135: the dictionary literal. *)
Definition logging_config (level dir_name : string) : LoggingConfig :=
  {| version := 1;
     disable_existing_loggers := false;
     formatters :=
       [("brief", "%(message)s");
        ("standard",
         "[%(asctime)s] [%(levelname)s]  [%(filename)s.%(funcName)s:%(lineno)3d]  [%(process)d::%(thread)d] %(message)s")];
     handlers :=
       [("default", rotating_file_handler level "standard" (dir_name +:+ "/server.log"));
        ("console", stream_handler level "standard");
        ("default_access", rotating_file_handler level "brief" (dir_name +:+ "/access.log"));
        ("console_access", stream_handler level "brief")];
     loggers :=
       [("werkzeug",
         {| logger_handlers := ["default_access"; "console_access"];
            logger_level := level; logger_propagate := false |});
        ("",
         {| logger_handlers := ["default"; "console"];
            logger_level := level; logger_propagate := false |})] |}.

(** Lines 76-150.  [NAMESPACE] is [settings.NAMESPACE], [hostname] what
    [socket.gethostname()] answers and [path_exists] the file system as
    [os.path.exists] sees it. *)
Definition init_logging (NAMESPACE : PyVal) (hostname : string)
    (path_exists : string -> bool) : list LogEffect :=
  let level := log_level NAMESPACE in
  let dir_name := "./log/" +:+ hostname in
  let made := if negb (path_exists dir_name) then [os_makedirs dir_name] else [] in
  let config := logging_config level dir_name in
  made ++ [dictConfig config; patch_wsgi_handler].

(** The configurations a run installs, in order. *)
Definition installed_configs (tr : list LogEffect) : list LoggingConfig :=
  omap (fun x => match x with dictConfig c => Some c | _ => None end) tr.

(** Whether the logger entry [l] lists the handler named [h]. *)
Definition attached (h : string) (l : string * LoggerConfig) : bool :=
  existsb (String.eqb h) (logger_handlers (snd l)).

(** The paths [os.path.exists] answers for once the effects of [tr] have
    happened: those it answered for before, and the directories made. *)
Definition exists_after (tr : list LogEffect) (path_exists : string -> bool)
    (path : string) : bool :=
  path_exists path
  || existsb (fun x => match x with
                       | os_makedirs d => String.eqb d path
                       | _ => false
                       end) tr.

(** The character of a decimal digit, and a number below 100 written on two
    digits. *)
Definition digit_char (d : Z) : ascii := ascii_of_nat (48 + Z.to_nat d).

Definition two_digits (n : Z) : string :=
  String (digit_char (n / 10)) (String (digit_char (n mod 10)) "").

(** The ranges [datetime] and [date] keep their fields in. *)
Definition in_range (t : struct_time) : Prop :=
  1 <= tm_year t <= 9999 /\ 1 <= tm_mon t <= 12 /\ 1 <= tm_mday t <= 31
  /\ 0 <= tm_hour t <= 23 /\ 0 <= tm_min t <= 59 /\ 0 <= tm_sec t <= 59.

(** A time with a four-digit year, its other fields in the ranges [datetime]
    keeps them in. *)
Definition valid_time (t : struct_time) : Prop :=
  1000 <= tm_year t <= 9999 /\ 1 <= tm_mon t <= 12 /\ 1 <= tm_mday t <= 31
  /\ 0 <= tm_hour t <= 23 /\ 0 <= tm_min t <= 59 /\ 0 <= tm_sec t <= 59.

(** The number a run of decimal digits writes, as [int(s)] reads it. *)
Definition digit_value (c : ascii) : Z := Z.of_nat (nat_of_ascii c) - 48.

Fixpoint int_of_digits (acc : Z) (s : string) : Z :=
  match s with
  | EmptyString => acc
  | String c rest => int_of_digits (10 * acc + digit_value c) rest
  end.

End App.

(** ** [src/models/query_model/__init__.py] *)

Module QueryModel.

(** The names the module's top-level statements bind: four imports and three
    class definitions. *)
Inductive GlobalObj : Type :=
| module_object (module_name : string)
| class_object (class_name : string).

Definition module_globals : gmap string GlobalObj :=
  list_to_map
    [("reqparse", module_object "flask_restful.reqparse");
     ("Field", class_object "Field");
     ("ApiDataType", class_object "ApiDataType");
     ("BaseModel", class_object "BaseModel");
     ("InvalidArgumentException", class_object "InvalidArgumentException");
     ("QueryField", class_object "QueryField");
     ("BaseQueryModel", class_object "BaseQueryModel");
     ("NoArgs", class_object "NoArgs")].

(** Reading a global name inside a method: the module's names first, then
    the builtins, [NameError] when neither binds it. *)
Definition load_global (builtins : gmap string GlobalObj) (name : string) : result GlobalObj :=
  match module_globals !! name with
  | Some o => Ok o
  | None =>
      match builtins !! name with
      | Some o => Ok o
      | None => Raise (NameError name)
      end
  end.

(** Keyword names that [parse_args] passes to [add_argument] itself: the same
    name coming again through [**kwargs] is a [TypeError] at the call. *)
Definition explicit_keywords : list string := ["type"; "location"; "required"; "nullable"].

(** The other keyword parameters of [reqparse.Argument.__init__], whose
    signature is closed: the only keywords [add_argument] can hand on. *)
Definition argument_keywords : list string :=
  ["default"; "dest"; "ignore"; "choices"; "action"; "help"; "operators";
   "case_sensitive"; "store_missing"; "trim"].

Section Model.

(** The types of [models] and [flask_restful] the module only passes along:
    members of the [ApiDataType] enumeration, argument locations, coercion
    functions and mock functions. *)
Context {ApiDataType Location ParseFunc MockFunc : Type}.

(** The part of a field that the base class [Field] initialises, by the
    slots of those names; [mock_func] is [None] for [False].  [kwargs] is no
    slot of [QueryField]: reading it succeeds only on an object on which
    something outside this module has bound it. *)
Record Field : Type := {
  name : string;
  field_type : ApiDataType;
  mock_func : option MockFunc;
  enum_values : list PyVal;
  description : string;
  nullable : bool;
  kwargs : option Kwargs;
}.

(** A [QueryField]: the base part and the slots [QueryField.__init__]
    assigns.  [default] is [None] while the slot is unset. *)
Record QueryField : Type := {
  base :> Field;
  location : Location;
  parser_kwargs : Kwargs;
  required : bool;
  parse_func : option ParseFunc;
  default : option PyVal;
}.

(** [Field.__init__(self, field_type, mock_func, enum_values, comment,
    nullable)]; [models/__init__.py] is not part of the sources. *)
Variable Field___init__ :
  ApiDataType -> option MockFunc -> list PyVal -> string -> bool -> Field.

(** Lines 11-19.  A keyword parameter the caller leaves out is [None] here
    and takes the default of the signature. *)
Definition QueryField___init__ (field_type : ApiDataType) (location : Location)
    (parser_func : option ParseFunc) (required : option bool)
    (mock_func : option MockFunc) (enum_values : option (list PyVal))
    (comment : option string) (nullable : option bool) (kwargs : Kwargs) : QueryField :=
  let required := keyword false required in
  let enum_values := keyword [] enum_values in
  let comment := keyword "" comment in
  let nullable := keyword true nullable in
  {| base := Field___init__ field_type mock_func enum_values comment nullable;
     location := location;
     parser_kwargs := kwargs;
     required := required;
     parse_func := parser_func;
     default := kwargs !! "default" |}.

(** [field.kwargs]. *)
Definition getattr_kwargs (field : QueryField) : result Kwargs :=
  match kwargs field with
  | Some kw => Ok kw
  | None => Raise (AttributeError "kwargs")
  end.

(** A query-model class, by the two tables the metaclass of [BaseModel]
    leaves on it. *)
Record QueryModelClass : Type := {
  __name__ : string;
  __fields__ : list QueryField;
  __fields_map__ : list (string * QueryField);
}.

(** An instance: the attributes bound on it apart from [__storage__], and
    [__storage__]. *)
Record BaseQueryModel : Type := {
  __class__ : QueryModelClass;
  attributes : gmap string PyVal;
  __storage__ : Kwargs;
}.

(** [BaseModel.__init__(self, drop_missing, **kwargs)], by the instance
    attributes it leaves; [models/__init__.py] is not part of the sources. *)
Variable BaseModel___init__ :
  QueryModelClass -> bool -> Kwargs -> result (gmap string PyVal).

(** [delattr(self, field_name)]. *)
Definition delattr (attrs : gmap string PyVal) (field_name : string)
    : result (gmap string PyVal) :=
  match attrs !! field_name with
  | Some _ => Ok (delete field_name attrs)
  | None => Raise (AttributeError field_name)
  end.

(** Lines 27-29. *)
Fixpoint delete_missing (field_names : list string) (storage : Kwargs)
    (attrs : gmap string PyVal) : result (gmap string PyVal) :=
  match field_names with
  | [] => Ok attrs
  | field_name :: rest =>
      if bool_decide (is_Some (storage !! field_name))
      then delete_missing rest storage attrs
      else attrs <- delattr attrs field_name ;; delete_missing rest storage attrs
  end.

(** Lines 24-29: the constructor, called with the keyword arguments [kwargs]. *)
Definition BaseQueryModel___init__ (cls : QueryModelClass) (kwargs : Kwargs)
    : result BaseQueryModel :=
  attrs <- BaseModel___init__ cls false kwargs ;;
  attrs <- delete_missing (map fst (__fields_map__ cls)) kwargs attrs ;;
  Ok {| __class__ := cls; attributes := attrs; __storage__ := kwargs |}.

(** An argument registered with a [reqparse.RequestParser]. *)
Record Argument : Type := {
  arg_name : string;
  arg_type : option ParseFunc;
  arg_location : Location;
  arg_required : bool;
  arg_nullable : bool;
  arg_kwargs : Kwargs;
}.

(** [parser.add_argument(name, type=.., location=.., required=..,
    nullable=.., **kwargs)]: the parser's arguments, in registration order.
    A key of [kwargs] that repeats a keyword of the call is a [TypeError] at
    the call; any key that [Argument.__init__] has no other parameter for,
    [name] among them, is a [TypeError] inside it. *)
Definition add_argument (parser : list Argument) (name : string)
    (type : option ParseFunc) (location : Location) (required nullable : bool)
    (kwargs : Kwargs) : result (list Argument) :=
  if existsb (fun k => bool_decide (is_Some (kwargs !! k))) explicit_keywords
  then Raise (TypeError "add_argument() got multiple values for keyword argument")
  else if forallb (fun k => bool_decide (In k argument_keywords))
            (map fst (map_to_list kwargs))
  then Ok (parser ++ [{| arg_name := name; arg_type := type; arg_location := location;
                         arg_required := required; arg_nullable := nullable;
                         arg_kwargs := kwargs |}])
  else Raise (TypeError "__init__() got an unexpected keyword argument").

(** The argument a field is registered as, given the extra keywords. *)
Definition argument_of (field : QueryField) (kw : Kwargs) : Argument :=
  {| arg_name := name field; arg_type := parse_func field; arg_location := location field;
     arg_required := required field; arg_nullable := nullable field; arg_kwargs := kw |}.

(** A field that the loop of lines 35-37 can register: it carries an
    attribute [kwargs], each of whose keys is a keyword that
    [Argument.__init__] takes and the call does not pass itself. *)
Definition registrable (field : QueryField) : Prop :=
  exists kw, kwargs field = Some kw
             /\ forall k, is_Some (kw !! k) -> In k argument_keywords.

(** Lines 35-37. *)
Fixpoint add_arguments (fields : list QueryField) (parser : list Argument)
    : result (list Argument) :=
  match fields with
  | [] => Ok parser
  | field :: rest =>
      kw <- getattr_kwargs field ;;
      parser <- add_argument parser (name field) (parse_func field) (location field)
                  (required field) (nullable field) kw ;;
      add_arguments rest parser
  end.

(** [parser.parse_args()] on the request being served: the namespace, or the
    error the parser aborts with. *)
Variable RequestParser_parse_args : list Argument -> result Kwargs.

(** Lines 40-44. *)
Fixpoint check_enum_values (fields : list QueryField) (parsed : Kwargs) : result unit :=
  match fields with
  | [] => Ok tt
  | field :: rest =>
      match (if tuple_truthy (enum_values field) then parsed !! name field else None) with
      | Some value =>
          if negb (is_None value) && negb (py_in value (enum_values field))
          then Raise (InvalidArgumentException (name field) (enum_values field))
          else check_enum_values rest parsed
      | None => check_enum_values rest parsed
      end
  end.

(** A declared field whose parsed value breaks its enumeration: the tuple
    is not empty and the value is neither [None] nor one of its members. *)
Definition violates (parsed : Kwargs) (field : QueryField) : Prop :=
  enum_values field <> [] /\
  exists value, parsed !! name field = Some value
                /\ value <> PyNone /\ py_in value (enum_values field) = false.

(** Lines 31-47. *)
Definition parse_args (cls : QueryModelClass) : result BaseQueryModel :=
  parser <- add_arguments (__fields__ cls) [] ;;
  parsed <- RequestParser_parse_args parser ;;
  do check_enum_values (__fields__ cls) parsed ;;
  BaseQueryModel___init__ cls parsed.

(** Lines 62-63: a query model that declares no field. *)
Definition NoArgs : QueryModelClass :=
  {| __name__ := "NoArgs"; __fields__ := []; __fields_map__ := [] |}.

(** Lines 49-56. *)
Definition as_dict (self : BaseQueryModel) : Kwargs := __storage__ self.

Definition get (self : BaseQueryModel) (item : string) (default : PyVal) : PyVal :=
  match __storage__ self !! item with
  | Some v => v
  | None => default
  end.

Definition __contains__ (self : BaseQueryModel) (item : string) : bool :=
  bool_decide (is_Some (__storage__ self !! item)).

(** Lines 58-59.  [pformat] is what [pprint.pformat(d, indent)] would
    compute; the format's arguments are evaluated left to right. *)
Definition __str__ (builtins : gmap string GlobalObj) (pformat : Kwargs -> nat -> string)
    (self : BaseQueryModel) : result string :=
  let class_name := __name__ (__class__ self) in
  pprint <- load_global builtins "pprint" ;;
  match pprint with
  | module_object m =>
      if String.eqb m "pprint"
      then Ok ("[<" +:+ class_name +:+ ">: "
                 +:+ String Str.nl (pformat (__storage__ self) 4%nat) +:+ "]")
      else Raise (AttributeError "pformat")
  | class_object _ => Raise (AttributeError "pformat")
  end.

End Model.

Arguments Field : clear implicits.
Arguments QueryField : clear implicits.
Arguments QueryModelClass : clear implicits.
Arguments BaseQueryModel : clear implicits.
Arguments Argument : clear implicits.

End QueryModel.

(** ** A sample query model

    Concrete stand-ins for what lies outside the two modules, and a small
    query model declared with them, on which the definitions above run. *)

Module Sample.
Import QueryModel.

(** Data types, locations, coercion functions and mock functions, by name. *)
Abbreviation SField := (Field string string).
Abbreviation SQueryField := (QueryField string string string string).
Abbreviation SClass := (QueryModelClass string string string string).
Abbreviation SArgument := (Argument string string).

(** A stand-in for [Field.__init__] of [models/__init__.py]: it stores its
    five arguments in the slots of those names, leaves the name to the class
    that declares the field, and binds nothing else. *)
Definition Field___init__ (field_type : string) (mock_func : option string)
    (enum_values : list PyVal) (comment : string) (nullable : bool) : SField :=
  {| name := ""; field_type := field_type; mock_func := mock_func;
     enum_values := enum_values; description := comment; nullable := nullable;
     kwargs := None |}.

(** Declaring a field in a class body names it after the attribute. *)
Definition declare (attr : string) (f : SQueryField) : SQueryField :=
  {| base := {| name := attr; field_type := field_type f; mock_func := mock_func f;
                enum_values := enum_values f; description := description f;
                nullable := nullable f; kwargs := kwargs f |};
     location := location f; parser_kwargs := parser_kwargs f; required := required f;
     parse_func := parse_func f; default := default f |}.

(** A field on which the attribute [kwargs] has been bound, to the keyword
    arguments it was built with. *)
Definition bind_kwargs (f : SQueryField) : SQueryField :=
  {| base := {| name := name f; field_type := field_type f; mock_func := mock_func f;
                enum_values := enum_values f; description := description f;
                nullable := nullable f; kwargs := Some (parser_kwargs f) |};
     location := location f; parser_kwargs := parser_kwargs f; required := required f;
     parse_func := parse_func f; default := default f |}.

(** [sort = QueryField(ApiDataType.STRING, 'args', enum_values=('asc', 'desc'))]. *)
Definition sort_field : SQueryField :=
  declare "sort"
    (QueryField___init__ Field___init__ "STRING" "args" None None None
       (Some [PyStr "asc"; PyStr "desc"]) None None ∅).

(** [page = QueryField(ApiDataType.INT, 'args', parser_func=int, default=1)]. *)
Definition page_field : SQueryField :=
  declare "page"
    (QueryField___init__ Field___init__ "INT" "args" (Some "int") None None
       None None None {[ "default" := PyInt 1 ]}).

(** The class as Python builds it. *)
Definition SortQuery : SClass :=
  {| __name__ := "SortQuery";
     __fields__ := [sort_field; page_field];
     __fields_map__ := [("sort", sort_field); ("page", page_field)] |}.

(** The same class with [kwargs] bound on its fields. *)
Definition BoundSortQuery : SClass :=
  {| __name__ := "SortQuery";
     __fields__ := [bind_kwargs sort_field; bind_kwargs page_field];
     __fields_map__ := [("sort", bind_kwargs sort_field); ("page", bind_kwargs page_field)] |}.

(** A stand-in for [BaseModel.__init__] of [models/__init__.py]: with
    [drop_missing] false every declared field is bound on the instance, to
    the keyword argument of its name or to [None]. *)
Definition BaseModel___init__ (cls : SClass) (drop_missing : bool) (kwargs : Kwargs)
    : result (gmap string PyVal) :=
  Ok (fold_right
        (fun field_name attrs =>
           match kwargs !! field_name with
           | Some v => <[field_name := v]> attrs
           | None => if drop_missing then attrs else <[field_name := PyNone]> attrs
           end)
        ∅ (map fst (__fields_map__ cls))).

(** A stand-in for [RequestParser.parse_args] on a request whose query string
    is [query]: every registered argument is stored under its name, with the
    value sent, else the argument's default, else [None]; a required argument
    that is not sent aborts the request. *)
Definition RequestParser_parse_args (query : Kwargs) (parser : list SArgument)
    : result Kwargs :=
  match List.find (fun a => arg_required a && bool_decide (query !! arg_name a = None)) parser with
  | Some _ => Raise (Raised "400 Bad Request")
  | None =>
      Ok (fold_right
            (fun a ns =>
               let value :=
                 match query !! arg_name a with
                 | Some v => v
                 | None => keyword PyNone (arg_kwargs a !! "default")
                 end in
               <[arg_name a := value]> ns)
            ∅ parser)
  end.

(** Two query strings: [?sort=asc] and [?sort=up]. *)
Definition sort_asc : Kwargs := {[ "sort" := PyStr "asc" ]}.
Definition sort_up : Kwargs := {[ "sort" := PyStr "up" ]}.

(** What [add_arguments] leaves in the parser for [BoundSortQuery]. *)
Definition sort_parser : list SArgument :=
  [argument_of (bind_kwargs sort_field) ∅;
   argument_of (bind_kwargs page_field) {[ "default" := PyInt 1 ]}].

(** The namespaces the parser makes of the two query strings. *)
Definition sort_asc_parsed : Kwargs := <[ "sort" := PyStr "asc" ]> {[ "page" := PyInt 1 ]}.
Definition sort_up_parsed : Kwargs := <[ "sort" := PyStr "up" ]> {[ "page" := PyInt 1 ]}.

(** A request without a body, and the handler's surroundings while it is
    served; the alert hook returns. *)
Definition sample_ctx : App.Ctx :=
  {| App.request := {| App.url := "http://localhost/items?sort=up";
                       App.args := [("sort", "up")]; App.json := Ok None |};
     App.format_exc := fun _ =>
       "Traceback (most recent call last):" +:+ String Str.nl "ValueError: boom";
     App.alert_hook := fun _ _ _ _ _ => Ok tt |}.


(** The same surroundings with the webhook out of reach: the hook raises. *)
Definition alert_down_ctx : App.Ctx :=
  {| App.request := App.request sample_ctx;
     App.format_exc := App.format_exc sample_ctx;
     App.alert_hook := fun _ _ _ _ _ => Raise (Raised "ConnectionError") |}.

(** [werkzeug.exceptions.NotFound()] and [ValueError('boom')]. *)
Definition not_found : App.PyExc :=
  {| App.exc_kind := App.HTTPException; App.exc_code := PyInt 404;
     App.exc_str := "404 Not Found"; App.exc_repr := "<NotFound '404: Not Found'>" |}.

Definition value_error : App.PyExc :=
  {| App.exc_kind := App.OtherException; App.exc_code := PyNone;
     App.exc_str := "boom"; App.exc_repr := "ValueError('boom')" |}.

(** The same surroundings, the traceback ending in a newline as
    [traceback.format_exc] prints it. *)
Definition sample_ctx_nl : App.Ctx :=
  {| App.request := App.request sample_ctx;
     App.format_exc := fun _ =>
       "Traceback (most recent call last):"
         +:+ String Str.nl ("ValueError: boom" +:+ String Str.nl "");
     App.alert_hook := fun _ _ _ _ _ => Ok tt |}.

(** [datetime(2024, 3, 5, 7, 8, 9)], the same instant a quarter of a second
    later, [date(2024, 3, 5)] and its midnight. *)
Definition march_5 : App.Date := {| App.year := 2024; App.month := 3; App.day := 5 |}.

Definition morning : App.DateTime :=
  {| App.dt_date := march_5; App.hour := 7; App.minute := 8; App.second := 9;
     App.microsecond := 0 |}.


Definition midnight : App.DateTime :=
  {| App.dt_date := march_5; App.hour := 0; App.minute := 0; App.second := 0;
     App.microsecond := 0 |}.

(** [sort = QueryField(ApiDataType.STRING, 'args', required=True,
    enum_values=('asc', 'desc'), nullable=False)]. *)
Definition sort_strict : SQueryField :=
  declare "sort"
    (QueryField___init__ Field___init__ "STRING" "args" None (Some true) None
       (Some [PyStr "asc"; PyStr "desc"]) None (Some false) ∅).

(** A request that sends [sort] as [None]. *)
Definition sort_none : Kwargs := {[ "sort" := PyNone ]}.

(** The instance attributes the base initialiser stand-in leaves on
    [sort=asc]. *)
Definition sort_asc_bound : gmap string PyVal :=
  <[ "sort" := PyStr "asc" ]> {[ "page" := PyNone ]}.

(** A few of the builtins. *)
Definition builtins : gmap string GlobalObj :=
  list_to_map
    [("print", class_object "builtin_function_or_method");
     ("len", class_object "builtin_function_or_method");
     ("delattr", class_object "builtin_function_or_method");
     ("str", class_object "str");
     ("super", class_object "super")].

End Sample.

(** * Properties *)

(** ** Splitting into lines *)

Module StrFacts.
Import Str.

Lemma app_empty_r (s : string) : s +:+ "" = s.
Proof.
  induction s as [|c s IH]; [done|].
  change (String c (s +:+ "") = String c s). by rewrite IH.
Qed.

Lemma split_nl_cons (s : string) : exists cur more, split_nl s = cur :: more.
Proof.
  induction s as [|c rest IH]; simpl.
  - by exists "", [].
  - destruct IH as (cur & more & ->). destruct (Ascii.eqb c nl); eauto.
Qed.



(** One more piece than there are newlines. *)
Lemma split_nl_length (s : string) : length (split_nl s) = S (count_nl s).
Proof.
  induction s as [|c rest IH]; simpl; [done|].
  destruct (split_nl_cons rest) as (cur & more & Hsplit).
  rewrite Hsplit in IH |- *.
  destruct (Ascii.eqb c nl); simpl in *; by rewrite <- ?IH.
Qed.

(** Splitting distributes over a newline between two texts. *)
Lemma split_nl_app_nl (s t : string) :
  split_nl (s +:+ String nl t) = split_nl s ++ split_nl t.
Proof.
  induction s as [|c s IH].
  - change ("" +:+ String nl t) with (String nl t). simpl.
    by destruct (split_nl_cons t) as (cur & more & ->).
  - change (String c s +:+ String nl t) with (String c (s +:+ String nl t)).
    simpl. rewrite IH.
    destruct (split_nl_cons s) as (cur & more & ->). simpl.
    by destruct (Ascii.eqb c nl).
Qed.

Lemma split_nl_no_nl (s : string) : has_nl s = false -> split_nl s = [s].
Proof.
  induction s as [|c s IH]; simpl; [done|].
  destruct (Ascii.eqb c nl); simpl; [done|].
  intros Hs. by rewrite (IH Hs).
Qed.

(** Splitting undoes joining, for lines that hold no newline. *)
Lemma split_join_nl (l : list string) :
  l <> [] -> Forall (fun x => has_nl x = false) l -> split_nl (join_nl l) = l.
Proof.
  induction l as [|x rest IH]; [done|]. intros _ Hall.
  apply Forall_cons in Hall as [Hx Hrest].
  destruct rest as [|y rest].
  - simpl. by apply split_nl_no_nl.
  - change (join_nl (x :: y :: rest)) with (x +:+ String nl (join_nl (y :: rest))).
    rewrite split_nl_app_nl, IH by done. by rewrite split_nl_no_nl.
Qed.

Lemma length_app (a b : string) :
  String.length (a +:+ b) = (String.length a + String.length b)%nat.
Proof.
  induction a as [|c a IH]; [done|].
  change (String c a +:+ b) with (String c (a +:+ b)). simpl. by rewrite IH.
Qed.

(** Two texts that start with pieces of one length agree piece by piece. *)
Lemma app_inj_length (a a' b b' : string) :
  String.length a = String.length a' -> a +:+ b = a' +:+ b' -> a = a' /\ b = b'.
Proof.
  revert a'. induction a as [|c a IH]; intros [|c' a'] Hlen Heq; try done.
  change (String c (a +:+ b) = String c' (a' +:+ b')) in Heq.
  injection Heq as -> Heq. injection Hlen as Hlen.
  by destruct (IH a' Hlen Heq) as [-> ->].
Qed.

End StrFacts.

(** ** The exception handler, the factory, the encoder and logging *)

Module AppFacts.
Import App.
Import Str StrFacts.

Lemma pretty_500 : pretty 500 = "500".
Proof. reflexivity. Qed.

(** Among integers only 500 prints as ["500"]. *)
Lemma pretty_eq_500 (n : Z) : pretty n = "500" <-> n = 500.
Proof.
  split; [|by intros ->].
  rewrite <- pretty_500. apply (inj pretty).
Qed.

Lemma py_str_500 (v : PyVal) : py_str v = "500" <-> is_status_500 v.
Proof.
  unfold is_status_500. destruct v as [|[]|n|s]; simpl.
  - split; [discriminate|by intros [|]].
  - split; [discriminate|by intros [|]].
  - split; [discriminate|by intros [|]].
  - rewrite pretty_eq_500. split.
    + intros ->. by left.
    + by intros [[= ->]|].
  - split.
    + intros ->. by right.
    + by intros [|[= ->]].
Qed.


(** The three ways a call of the handler ends. *)
Lemma handle_exception_cases (ctx : Ctx) (e : PyExc) :
  let code := resolved_code e in
  let lines := split_nl (format_exc ctx 10) in
  let response :=
    ([("error_code", BVal code); ("error_msg", BVal (PyStr (exc_str e)));
      ("traceback", BLines lines)], code) in
  (~ is_status_500 code
   /\ handle_exception ctx e = ([logger_exception e], Ok response))
  \/ (is_status_500 code /\ exists x,
        json (request ctx) = Raise x
        /\ handle_exception ctx e = ([logger_exception e], Raise x))
  \/ (is_status_500 code /\ exists j,
        json (request ctx) = Ok j
        /\ fst (handle_exception ctx e)
           = [logger_exception e;
              send_dingding_alert (url (request ctx)) (args (request ctx)) j
                (exc_repr e) lines]
        /\ ((alert_hook ctx (url (request ctx)) (args (request ctx)) j (exc_repr e) lines
             = Ok tt
             /\ snd (handle_exception ctx e) = Ok response)
            \/ exists x,
                 alert_hook ctx (url (request ctx)) (args (request ctx)) j (exc_repr e) lines
                 = Raise x
                 /\ snd (handle_exception ctx e) = Raise x)).
Proof.
  cbv zeta. unfold handle_exception. rewrite map_id.
  destruct (String.eqb_spec (py_str (resolved_code e)) "500") as [Heq|Hne].
  - apply py_str_500 in Heq.
    destruct (json (request ctx)) as [j|x]; [|right; left; split; [done|by exists x]].
    right. right. split; [done|]. exists j. split; [done|].
    destruct (alert_hook ctx _ _ j _ _) as [[]|x] eqn:Hhook.
    + split; [done|]. by left.
    + split; [done|]. right. by exists x.
  - left. split; [|done]. by rewrite <- py_str_500.
Qed.




(** *** Logging *)

Lemma py_eq_PyStr (v : PyVal) (s : string) : py_eq v (PyStr s) = true <-> v = PyStr s.
Proof.
  destruct v as [| b | n | s']; simpl; try (split; [discriminate|by intros [=]]).
  rewrite String.eqb_eq. split; [by intros ->|by intros [= ->]].
Qed.

Lemma log_level_INFO (ns : PyVal) : log_level ns = "INFO" <-> ns = PyStr "PRODUCTION".
Proof.
  unfold log_level. rewrite <- py_eq_PyStr.
  destruct (py_eq ns (PyStr "PRODUCTION")); split; done.
Qed.

Lemma log_level_DEBUG (ns : PyVal) : log_level ns = "DEBUG" <-> ns <> PyStr "PRODUCTION".
Proof.
  unfold log_level. rewrite <- py_eq_PyStr.
  destruct (py_eq ns (PyStr "PRODUCTION")); split; done.
Qed.

Lemma installed_configs_init_logging (ns : PyVal) (host : string) (ex : string -> bool) :
  installed_configs (init_logging ns host ex)
  = [logging_config (log_level ns) ("./log/" +:+ host)].
Proof.
  unfold init_logging, installed_configs.
  by destruct (negb (ex ("./log/" +:+ host))).
Qed.

(** C7: the level is ['INFO'] exactly when [settings.NAMESPACE] is
    ['PRODUCTION'] and ['DEBUG'] for every other value; the one configuration
    [init_logging] installs has the four handlers and the two loggers
    ['werkzeug'] and [''], all at that level. *)
Theorem init_logging_level (NAMESPACE : PyVal) (hostname : string)
    (path_exists : string -> bool) :
  let level := log_level NAMESPACE in
  (level = "INFO" <-> NAMESPACE = PyStr "PRODUCTION")
  /\ (level = "DEBUG" <-> NAMESPACE <> PyStr "PRODUCTION")
  /\ exists config,
       installed_configs (init_logging NAMESPACE hostname path_exists) = [config]
       /\ map fst (handlers config)
          = ["default"; "console"; "default_access"; "console_access"]
       /\ Forall (fun h => handler_level (snd h) = level) (handlers config)
       /\ map fst (loggers config) = ["werkzeug"; ""]
       /\ Forall (fun l => logger_level (snd l) = level) (loggers config).
Proof.
  cbv zeta. split; [apply log_level_INFO|]. split; [apply log_level_DEBUG|].
  eexists. split; [apply installed_configs_init_logging|].
  simpl. repeat split; repeat constructor.
Qed.

(** The handler on the two sample exceptions. *)
Example handle_not_found :
  handle_exception Sample.sample_ctx Sample.not_found
  = ([logger_exception Sample.not_found],
     Ok ([("error_code", BVal (PyInt 404)); ("error_msg", BVal (PyStr "404 Not Found"));
          ("traceback", BLines ["Traceback (most recent call last):"; "ValueError: boom"])],
         PyInt 404)).
Proof. reflexivity. Qed.

Example handle_value_error :
  alert_sent (fst (handle_exception Sample.sample_ctx Sample.value_error)) = true
  /\ snd (handle_exception Sample.alert_down_ctx Sample.value_error)
     = Raise (Raised "ConnectionError").
Proof. split; reflexivity. Qed.

(** *** The factory *)

Section FactoryFacts.

Context {Blueprint : Type}.
Variable all_blueprints : list Blueprint.
Variable SQLALCHEMY_DATABASE_URI SQLALCHEMY_TRACK_MODIFICATIONS : PyVal.
Variable module_name : string.

Let app : Flask Blueprint :=
  create_app Blueprint all_blueprints SQLALCHEMY_DATABASE_URI
    SQLALCHEMY_TRACK_MODIFICATIONS module_name.

(** The loop appends the blueprints in order and touches nothing else. *)
Lemma fold_register_blueprint (l : list Blueprint) (a : Flask Blueprint) :
  blueprints (fold_left (register_blueprint Blueprint) l a) = blueprints a ++ l
  /\ error_handler_spec (fold_left (register_blueprint Blueprint) l a) = error_handler_spec a
  /\ json_encoder (fold_left (register_blueprint Blueprint) l a) = json_encoder a
  /\ config (fold_left (register_blueprint Blueprint) l a) = config a
  /\ extensions (fold_left (register_blueprint Blueprint) l a) = extensions a.
Proof.
  revert a. induction l as [|bp l IH]; intros a; simpl.
  - by rewrite app_nil_r.
  - destruct (IH (register_blueprint Blueprint a bp)) as (-> & -> & -> & -> & ->).
    simpl. by rewrite <- app_assoc.
Qed.

Lemma create_app_blueprints : blueprints app = all_blueprints.
Proof.
  unfold app, create_app, init_config, register_blueprints. simpl.
  by destruct (fold_register_blueprint all_blueprints
    (set_config Blueprint "SQLALCHEMY_TRACK_MODIFICATIONS" SQLALCHEMY_TRACK_MODIFICATIONS
      (set_config Blueprint "SQLALCHEMY_DATABASE_URI" SQLALCHEMY_DATABASE_URI
        (add_extension Blueprint (CORS true) (Flask_new Blueprint module_name)))))
    as (-> & _).
Qed.

Lemma create_app_error_handler_spec :
  error_handler_spec app = [(Exception_class, handle_exception)].
Proof.
  unfold app, create_app, init_config, register_blueprints. simpl.
  by destruct (fold_register_blueprint all_blueprints
    (set_config Blueprint "SQLALCHEMY_TRACK_MODIFICATIONS" SQLALCHEMY_TRACK_MODIFICATIONS
      (set_config Blueprint "SQLALCHEMY_DATABASE_URI" SQLALCHEMY_DATABASE_URI
        (add_extension Blueprint (CORS true) (Flask_new Blueprint module_name)))))
    as (_ & -> & _).
Qed.

(** C6: [create_app] registers every blueprint of [all_blueprints], in
    their order and nothing else, and installs [handle_exception] as the one
    error handler, for the [Exception] class; so every supplied blueprint is
    registered and every exception is dispatched to [handle_exception]. *)
Theorem create_app_registers :
  blueprints app = all_blueprints
  /\ (forall i bp, all_blueprints !! i = Some bp -> blueprints app !! i = Some bp)
  /\ (forall bp, In bp all_blueprints -> In bp (blueprints app))
  /\ error_handler_spec app = [(Exception_class, handle_exception)]
  /\ (forall e : PyExc, find_error_handler app e = Some handle_exception).
Proof.
  pose proof create_app_blueprints as Hbps.
  pose proof create_app_error_handler_spec as Hspec.
  split; [done|]. split; [by rewrite Hbps|]. split; [by rewrite Hbps|].
  split; [done|].
  intros e. unfold find_error_handler. by rewrite Hspec.
Qed.

(** *** The encoder *)

Lemma strftime_datetime (t : struct_time) :
  strftime "%Y-%m-%d %H:%M:%S" t
  = pretty (tm_year t) +:+ "-" +:+ pad 2 (tm_mon t) +:+ "-" +:+ pad 2 (tm_mday t)
      +:+ " " +:+ pad 2 (tm_hour t) +:+ ":" +:+ pad 2 (tm_min t) +:+ ":" +:+ pad 2 (tm_sec t).
Proof.
  cbn [strftime Ascii.eqb Bool.eqb directive]. unfold directive. simpl.
  by rewrite StrFacts.app_empty_r.
Qed.

(** Below 100 the padded rendering is the two digits of the number. *)
Lemma pad2_two_digits (n : Z) : 0 <= n < 100 -> pad 2 n = two_digits n.
Proof.
  intros Hn.
  assert (Forall (fun n => pad 2 n = two_digits n) (seqZ 0 100)) as Hall.
  { apply (bool_decide_unpack _). vm_compute. exact I. }
  rewrite Forall_seqZ in Hall. apply Hall. lia.
Qed.

Lemma strftime_in_range (t : struct_time) :
  in_range t ->
  strftime "%Y-%m-%d %H:%M:%S" t
  = pretty (tm_year t) +:+ "-" +:+ two_digits (tm_mon t) +:+ "-" +:+ two_digits (tm_mday t)
      +:+ " " +:+ two_digits (tm_hour t) +:+ ":" +:+ two_digits (tm_min t) +:+ ":"
      +:+ two_digits (tm_sec t).
Proof.
  intros (Hy & Hm & Hd & HH & HM & HS). rewrite strftime_datetime.
  by rewrite !pad2_two_digits by lia.
Qed.

Example strftime_sample :
  JsonEncoder_default
    (VDatetime {| dt_date := {| year := 2024; month := 3; day := 5 |};
                  hour := 7; minute := 8; second := 9; microsecond := 0 |})
  = Ok "2024-03-05 07:08:09"
  /\ JsonEncoder_default (VDate {| year := 987; month := 12; day := 31 |})
     = Ok "987-12-31 00:00:00".
Proof. split; reflexivity. Qed.

Lemma create_app_json_encoder : json_encoder app = JsonEncoder.
Proof. reflexivity. Qed.

(** C10: [JsonEncoder.default] answers for three shapes of value and no
    other: a [datetime] or a [date] gives its rendering in the format
    [%Y-%m-%d %H:%M:%S] (the year in decimal, then month, day, hour, minute
    and second on two digits each, midnight for a date), a [FrameSummary]
    gives [str(value)], and every other value goes to
    [json.JSONEncoder.default], which raises [TypeError]; [create_app]
    installs this encoder as the application's JSON encoder. *)
Theorem JsonEncoder_default_total :
  (forall d : DateTime,
     in_range (datetime_timetuple d) ->
     JsonEncoder_default (VDatetime d)
     = Ok (pretty (year (dt_date d)) +:+ "-" +:+ two_digits (month (dt_date d)) +:+ "-"
             +:+ two_digits (day (dt_date d)) +:+ " " +:+ two_digits (hour d) +:+ ":"
             +:+ two_digits (minute d) +:+ ":" +:+ two_digits (second d)))
  /\ (forall d : Date,
       in_range (date_timetuple d) ->
       JsonEncoder_default (VDate d)
       = Ok (pretty (year d) +:+ "-" +:+ two_digits (month d) +:+ "-"
               +:+ two_digits (day d) +:+ " 00:00:00"))
  /\ (forall f : FrameSummary,
       JsonEncoder_default (VFrameSummary f) = Ok (py_str_obj (VFrameSummary f)))
  /\ (forall n : string,
       JsonEncoder_default (VObject n) = JSONEncoder_default (VObject n)
       /\ exists msg, JsonEncoder_default (VObject n) = Raise (TypeError msg))
  /\ (forall value : JsonInput,
       is_Ok (JsonEncoder_default value) = false <-> exists n, value = VObject n)
  /\ json_encoder app = JsonEncoder
  /\ encoder_default (json_encoder app) = JsonEncoder_default.
Proof.
  split.
  { intros d Hd.
    change (JsonEncoder_default (VDatetime d))
      with (Ok (A := string) (strftime "%Y-%m-%d %H:%M:%S" (datetime_timetuple d))).
    by rewrite strftime_in_range. }
  split.
  { intros d Hd.
    change (JsonEncoder_default (VDate d))
      with (Ok (A := string) (strftime "%Y-%m-%d %H:%M:%S" (date_timetuple d))).
    by rewrite strftime_in_range. }
  split; [done|].
  split.
  { intros n. split; [done|]. by eexists. }
  split.
  { intros [d|d|f|n]; simpl; split; try done; try (by intros [? [=]]).
    intros _. by exists n. }
  by rewrite create_app_json_encoder.
Qed.

(** *** More on the factory *)

Lemma fold_register_blueprint_name (l : list Blueprint) (a : Flask Blueprint) :
  import_name (fold_left (register_blueprint Blueprint) l a) = import_name a.
Proof.
  revert a. induction l as [|bp l IH]; intros a; simpl; [done|]. by rewrite IH.
Qed.

(** X8: on any application, [register_blueprints] puts the blueprints of
    [all_blueprints] after those already registered, which stay in place, and
    leaves the configuration, the error handlers, the encoder and the
    extensions as they were. *)
Theorem register_blueprints_frame (a : Flask Blueprint) :
  blueprints (register_blueprints Blueprint all_blueprints a) = blueprints a ++ all_blueprints
  /\ config (register_blueprints Blueprint all_blueprints a) = config a
  /\ error_handler_spec (register_blueprints Blueprint all_blueprints a) = error_handler_spec a
  /\ json_encoder (register_blueprints Blueprint all_blueprints a) = json_encoder a
  /\ extensions (register_blueprints Blueprint all_blueprints a) = extensions a.
Proof.
  unfold register_blueprints.
  destruct (fold_register_blueprint all_blueprints a) as (Hb & Hh & He & Hc & Hx).
  by rewrite Hb, Hh, He, Hc, Hx.
Qed.

(** X7: the application [create_app] returns carries both settings in its
    configuration, under their own names and no other key, whatever the
    blueprints; CORS is set up with credentials before the database is bound,
    and the import name is the module's. *)
Theorem create_app_config :
  config app !! "SQLALCHEMY_DATABASE_URI" = Some SQLALCHEMY_DATABASE_URI
  /\ config app !! "SQLALCHEMY_TRACK_MODIFICATIONS" = Some SQLALCHEMY_TRACK_MODIFICATIONS
  /\ dom (config app) = {[ "SQLALCHEMY_DATABASE_URI"; "SQLALCHEMY_TRACK_MODIFICATIONS" ]}
  /\ extensions app = [CORS true; SQLAlchemy_db]
  /\ import_name app = module_name.
Proof.
  unfold app, create_app, init_config, register_blueprints. simpl.
  destruct (fold_register_blueprint all_blueprints
    (set_config Blueprint "SQLALCHEMY_TRACK_MODIFICATIONS" SQLALCHEMY_TRACK_MODIFICATIONS
      (set_config Blueprint "SQLALCHEMY_DATABASE_URI" SQLALCHEMY_DATABASE_URI
        (add_extension Blueprint (CORS true) (Flask_new Blueprint module_name)))))
    as (_ & _ & _ & -> & ->).
  simpl. split; [by rewrite lookup_insert_ne, lookup_insert_eq|].
  split; [by rewrite lookup_insert_eq|].
  split; [rewrite !dom_insert_L, dom_empty_L; set_solver|].
  split; [done|]. by rewrite fold_register_blueprint_name.
Qed.

End FactoryFacts.

(** *** More on the handler *)

(** What the handler returns, when it returns. *)
Lemma handle_exception_returns (ctx : Ctx) (e : PyExc) (body : Body) (status : PyVal) :
  snd (handle_exception ctx e) = Ok (body, status) ->
  body = [("error_code", BVal (resolved_code e)); ("error_msg", BVal (PyStr (exc_str e)));
          ("traceback", BLines (split_nl (format_exc ctx 10)))]
  /\ status = resolved_code e.
Proof.
  destruct (handle_exception_cases ctx e)
    as [[_ ->]|[(_ & x & _ & ->)|(_ & j & _ & _ & [[_ ->]|(x & _ & ->)])]]; simpl;
    try done; by intros [= <- <-].
Qed.

Lemma body_traceback (ctx : Ctx) (e : PyExc) (body : Body) (status : PyVal) :
  snd (handle_exception ctx e) = Ok (body, status) ->
  body_get body "traceback" = Some (BLines (split_nl (format_exc ctx 10))).
Proof. intros Hret. by destruct (handle_exception_returns _ _ _ _ Hret) as [-> _]. Qed.

(** X1: the [traceback] of a body the handler returns is never an empty
    list: it has one entry more than the formatted traceback has newlines, so
    one entry even for an empty text. *)
Theorem handle_exception_traceback_count (ctx : Ctx) (e : PyExc) (body : Body)
    (status : PyVal) :
  snd (handle_exception ctx e) = Ok (body, status) ->
  exists first rest,
    body_get body "traceback" = Some (BLines (first :: rest))
    /\ length (first :: rest) = S (count_nl (format_exc ctx 10)).
Proof.
  intros Hret. rewrite (body_traceback _ _ _ _ Hret).
  destruct (split_nl_cons (format_exc ctx 10)) as (first & rest & Hsplit).
  exists first, rest. rewrite <- Hsplit. split; [done|]. apply split_nl_length.
Qed.

(** X2: when the formatted traceback is a list of lines joined by newlines,
    none of them holding a newline, the [traceback] of a body the handler
    returns is that list of lines. *)
Theorem handle_exception_traceback_roundtrip (ctx : Ctx) (e : PyExc) (lines : list string)
    (body : Body) (status : PyVal) :
  snd (handle_exception ctx e) = Ok (body, status) ->
  lines <> [] ->
  Forall (fun l => has_nl l = false) lines ->
  format_exc ctx 10 = join_nl lines ->
  body_get body "traceback" = Some (BLines lines).
Proof.
  intros Hret Hne Hlines Hfmt. rewrite (body_traceback _ _ _ _ Hret), Hfmt.
  by rewrite split_join_nl.
Qed.

(** X3: a formatted traceback that ends in a newline, as
    [traceback.format_exc] prints it, gives a [traceback] whose last entry is
    the empty string, after the lines of the text before that newline. *)
Theorem handle_exception_traceback_trailing (ctx : Ctx) (e : PyExc) (s : string)
    (body : Body) (status : PyVal) :
  snd (handle_exception ctx e) = Ok (body, status) ->
  format_exc ctx 10 = s +:+ String nl "" ->
  body_get body "traceback" = Some (BLines (split_nl s ++ [""]))
  /\ last (split_nl (format_exc ctx 10)) = Some "".
Proof.
  intros Hret Hfmt. rewrite (body_traceback _ _ _ _ Hret), Hfmt, split_nl_app_nl.
  split; [done|]. change (split_nl "") with [""]. by rewrite last_snoc.
Qed.

(** X4: an alert the handler sends carries the url and args of the request
    being served, the json it read from it, [repr(e)], and the lines of the
    formatted traceback, the very lines a returned body has under
    [traceback]; the status settled on is then 500, and the alert is the only
    one of the call. *)
Theorem alert_carries_response (ctx : Ctx) (e : PyExc) (u : string)
    (a : list (string * string)) (j : option string) (r : string) (x : list string) :
  In (send_dingding_alert u a j r x) (fst (handle_exception ctx e)) ->
  u = url (request ctx) /\ a = args (request ctx) /\ json (request ctx) = Ok j
  /\ r = exc_repr e
  /\ x = split_nl (format_exc ctx 10)
  /\ is_status_500 (resolved_code e)
  /\ length (filter (fun y => is_alert y = true) (fst (handle_exception ctx e))) = 1%nat
  /\ forall body status,
       snd (handle_exception ctx e) = Ok (body, status) ->
       body_get body "traceback" = Some (BLines x) /\ is_status_500 status.
Proof.
  intros Hin.
  assert (forall body status, snd (handle_exception ctx e) = Ok (body, status) ->
            body_get body "traceback" = Some (BLines (split_nl (format_exc ctx 10)))
            /\ status = resolved_code e) as Hret.
  { intros body status H. split; [by eapply body_traceback|].
    by destruct (handle_exception_returns _ _ _ _ H). }
  destruct (handle_exception_cases ctx e)
    as [[_ Heq]|[(_ & y & _ & Heq)|(H500 & j' & Hjson & Htrace & _)]].
  - rewrite Heq in Hin. by destruct Hin as [|[]].
  - rewrite Heq in Hin. by destruct Hin as [|[]].
  - rewrite Htrace in Hin |- *.
    destruct Hin as [Hlog|[[= <- <- <- <- <-]|[]]]; [done|].
    repeat split; try done.
    + by destruct (Hret body status H) as [? _].
    + by destruct (Hret body status H) as [_ ->].
Qed.

(** *** More on the encoder *)

(** A padded field has its full width and reads back as the number. *)
Lemma pad2_digits (n : Z) :
  0 <= n < 100 -> String.length (pad 2 n) = 2%nat /\ int_of_digits 0 (pad 2 n) = n.
Proof.
  intros Hn.
  assert (Forall (fun n => String.length (pad 2 n) = 2%nat /\ int_of_digits 0 (pad 2 n) = n)
            (seqZ 0 100)) as Hall.
  { apply (bool_decide_unpack _). vm_compute. exact I. }
  rewrite Forall_seqZ in Hall. apply Hall. lia.
Qed.

Lemma year4_digits (n : Z) :
  1000 <= n < 10000 ->
  String.length (pretty n) = 4%nat /\ int_of_digits 0 (pretty n) = n.
Proof.
  intros Hn.
  assert (Forall (fun n => String.length (pretty n) = 4%nat /\ int_of_digits 0 (pretty n) = n)
            (seqZ 1000 9000)) as Hall.
  { apply (bool_decide_unpack _). vm_compute. exact I. }
  rewrite Forall_seqZ in Hall. apply Hall. lia.
Qed.

Lemma strftime_inj (t1 t2 : struct_time) :
  valid_time t1 -> valid_time t2 ->
  strftime "%Y-%m-%d %H:%M:%S" t1 = strftime "%Y-%m-%d %H:%M:%S" t2 -> t1 = t2.
Proof.
  intros (Hy1 & Hm1 & Hd1 & HH1 & HM1 & HS1) (Hy2 & Hm2 & Hd2 & HH2 & HM2 & HS2).
  rewrite !strftime_datetime. intros Heq.
  destruct (year4_digits (tm_year t1)) as [Ly1 Vy1]; [lia|].
  destruct (year4_digits (tm_year t2)) as [Ly2 Vy2]; [lia|].
  destruct (pad2_digits (tm_mon t1)) as [Lm1 Vm1]; [lia|].
  destruct (pad2_digits (tm_mon t2)) as [Lm2 Vm2]; [lia|].
  destruct (pad2_digits (tm_mday t1)) as [Ld1 Vd1]; [lia|].
  destruct (pad2_digits (tm_mday t2)) as [Ld2 Vd2]; [lia|].
  destruct (pad2_digits (tm_hour t1)) as [LH1 VH1]; [lia|].
  destruct (pad2_digits (tm_hour t2)) as [LH2 VH2]; [lia|].
  destruct (pad2_digits (tm_min t1)) as [LM1 VM1]; [lia|].
  destruct (pad2_digits (tm_min t2)) as [LM2 VM2]; [lia|].
  destruct (pad2_digits (tm_sec t1)) as [_ VS1]; [lia|].
  destruct (pad2_digits (tm_sec t2)) as [_ VS2]; [lia|].
  apply app_inj_length in Heq as [Ey Heq]; [|congruence].
  apply app_inj_length in Heq as [_ Heq]; [|done].
  apply app_inj_length in Heq as [Em Heq]; [|congruence].
  apply app_inj_length in Heq as [_ Heq]; [|done].
  apply app_inj_length in Heq as [Ed Heq]; [|congruence].
  apply app_inj_length in Heq as [_ Heq]; [|done].
  apply app_inj_length in Heq as [EH Heq]; [|congruence].
  apply app_inj_length in Heq as [_ Heq]; [|done].
  apply app_inj_length in Heq as [EM Heq]; [|congruence].
  apply app_inj_length in Heq as [_ ES]; [|done].
  destruct t1, t2; simpl in *. f_equal; congruence.
Qed.



(** X6: a [date] is encoded as the text of a [datetime] exactly when that
    datetime is midnight (to the second) of the same day: the encoder does
    not tell a date from its midnight. *)
Theorem JsonEncoder_date_as_midnight (d : Date) (dt : DateTime) :
  valid_time (date_timetuple d) -> valid_time (datetime_timetuple dt) ->
  (JsonEncoder_default (VDate d) = JsonEncoder_default (VDatetime dt)
   <-> dt_date dt = d /\ hour dt = 0 /\ minute dt = 0 /\ second dt = 0).
Proof.
  intros Hv1 Hv2.
  change (JsonEncoder_default (VDate d))
    with (Ok (A := string) (strftime "%Y-%m-%d %H:%M:%S" (date_timetuple d))).
  change (JsonEncoder_default (VDatetime dt))
    with (Ok (A := string) (strftime "%Y-%m-%d %H:%M:%S" (datetime_timetuple dt))).
  split.
  - intros [= Heq]. apply strftime_inj in Heq; [|done..].
    injection Heq as Hy Hm Hd HH HM HS.
    destruct d as [y m dd], dt as [[y2 m2 dd2] H2 M2 S2 u2]. simpl in *. by subst.
  - intros (Hdate & HH & HM & HS). unfold datetime_timetuple, date_timetuple.
    by rewrite Hdate, HH, HM, HS.
Qed.

(** *** More on logging *)

Lemma init_logging_split (ns : PyVal) (host : string) (ex : string -> bool) :
  init_logging ns host ex
  = (if ex ("./log/" +:+ host) then [] else [os_makedirs ("./log/" +:+ host)])
    ++ [dictConfig (logging_config (log_level ns) ("./log/" +:+ host)); patch_wsgi_handler].
Proof. unfold init_logging. by destruct (ex ("./log/" +:+ host)). Qed.

(** X9: [init_logging] calls [os.makedirs] for [./log/<hostname>] only, and
    exactly when [os.path.exists] denies that path; the call comes before any
    call of [dictConfig], and the configuration handed to [dictConfig] names
    two files, [server.log] and [access.log], directly under that path. *)
Theorem init_logging_directory (NAMESPACE : PyVal) (hostname : string)
    (path_exists : string -> bool) :
  let dir_name := "./log/" +:+ hostname in
  let trace := init_logging NAMESPACE hostname path_exists in
  (forall d, In (os_makedirs d) trace <-> d = dir_name /\ path_exists dir_name = false)
  /\ (forall (i j : nat) d config,
        trace !! i = Some (os_makedirs d) -> trace !! j = Some (dictConfig config) ->
        (i < j)%nat)
  /\ (forall config, In (dictConfig config) trace ->
        omap (fun h => handler_filename (snd h)) (handlers config)
        = [dir_name +:+ "/server.log"; dir_name +:+ "/access.log"]).
Proof.
  cbv zeta. rewrite init_logging_split.
  destruct (path_exists ("./log/" +:+ hostname)) eqn:Hex; simpl.
  - split.
    { intros d. split; [by intros [|[|[]]]|by intros [_ ?]]. }
    split.
    { intros [|[|i]] [|[|j]] d config Hi Hj; simpl in *; try done. }
    by intros config [[= <-]|[|[]]].
  - split.
    { intros d. split.
      - by intros [[= <-]|[|[|[]]]].
      - intros [-> _]. by left. }
    split.
    { intros [|[|[|i]]] [|[|[|j]]] d config Hi Hj; simpl in *; try done; lia. }
    by intros config [|[[= <-]|[|[]]]].
Qed.

(** X10: running [init_logging] again on the same host, after the first run
    has had its effects, makes no directory: it only installs the
    configuration and patches the WSGI handler, and with the same namespace
    the configuration is the one installed before. *)
Theorem init_logging_twice (NAMESPACE NAMESPACE' : PyVal) (hostname : string)
    (path_exists : string -> bool) :
  let first := init_logging NAMESPACE hostname path_exists in
  let second := init_logging NAMESPACE' hostname (exists_after first path_exists) in
  (forall d, ~ In (os_makedirs d) second)
  /\ second = [dictConfig (logging_config (log_level NAMESPACE') ("./log/" +:+ hostname));
               patch_wsgi_handler]
  /\ (NAMESPACE = NAMESPACE' -> installed_configs second = installed_configs first).
Proof.
  cbv zeta.
  assert (exists_after (init_logging NAMESPACE hostname path_exists) path_exists
            ("./log/" +:+ hostname) = true) as Hnow.
  { rewrite init_logging_split. unfold exists_after.
    destruct (path_exists ("./log/" +:+ hostname)); simpl; [done|].
    by rewrite String.eqb_refl. }
  rewrite (init_logging_split NAMESPACE'), Hnow. simpl.
  split; [by intros d [|[|[]]]|]. split; [done|].
  intros <-. by rewrite installed_configs_init_logging.
Qed.

(** X11: the configuration [init_logging] installs is closed: every handler
    a logger lists is defined, every formatter a handler names is defined,
    handler and logger names are distinct, each handler is attached to
    exactly one logger, and neither logger propagates, so no record is
    written twice. *)
Theorem logging_config_well_formed (NAMESPACE : PyVal) (hostname : string)
    (path_exists : string -> bool) :
  exists config,
    installed_configs (init_logging NAMESPACE hostname path_exists) = [config]
    /\ (forall l h, In l (loggers config) -> In h (logger_handlers (snd l)) ->
                    In h (map fst (handlers config)))
    /\ (forall h, In h (handlers config) ->
                  In (handler_formatter (snd h)) (map fst (formatters config)))
    /\ (forall h, In h (map fst (handlers config)) ->
                  length (filter (fun l => attached h l = true) (loggers config)) = 1%nat)
    /\ NoDup (map fst (handlers config))
    /\ NoDup (map fst (loggers config))
    /\ Forall (fun l => logger_propagate (snd l) = false) (loggers config).
Proof.
  eexists. split; [apply installed_configs_init_logging|]. simpl.
  split.
  { intros l h [<-|[<-|[]]]; simpl; intros [<-|[<-|[]]]; tauto. }
  split.
  { intros h [<-|[<-|[<-|[<-|[]]]]]; simpl; tauto. }
  split.
  { by intros h [<-|[<-|[<-|[<-|[]]]]]. }
  split; [apply (bool_decide_unpack _); by vm_compute|].
  split; [apply (bool_decide_unpack _); by vm_compute|].
  by repeat constructor.
Qed.

(** *** The samples *)





Lemma sample_returns :
  snd (handle_exception Sample.sample_ctx Sample.value_error)
  = Ok ([("error_code", BVal (PyInt 500)); ("error_msg", BVal (PyStr "boom"));
         ("traceback", BLines ["Traceback (most recent call last):"; "ValueError: boom"])],
        PyInt 500).
Proof. reflexivity. Qed.

Lemma sample_nl_returns :
  snd (handle_exception Sample.sample_ctx_nl Sample.value_error)
  = Ok ([("error_code", BVal (PyInt 500)); ("error_msg", BVal (PyStr "boom"));
         ("traceback",
          BLines ["Traceback (most recent call last):"; "ValueError: boom"; ""])],
        PyInt 500).
Proof. reflexivity. Qed.

Lemma handle_exception_traceback_count_witness :
  exists first rest,
    body_get [("error_code", BVal (PyInt 500)); ("error_msg", BVal (PyStr "boom"));
              ("traceback",
               BLines ["Traceback (most recent call last):"; "ValueError: boom"])]
      "traceback" = Some (BLines (first :: rest))
    /\ length (first :: rest) = S (count_nl (format_exc Sample.sample_ctx 10)).
Proof.
  exact (handle_exception_traceback_count Sample.sample_ctx Sample.value_error _ _
           sample_returns).
Defined.

Lemma handle_exception_traceback_roundtrip_witness :
  body_get [("error_code", BVal (PyInt 500)); ("error_msg", BVal (PyStr "boom"));
            ("traceback",
             BLines ["Traceback (most recent call last):"; "ValueError: boom"])]
    "traceback"
  = Some (BLines ["Traceback (most recent call last):"; "ValueError: boom"]).
Proof.
  apply (handle_exception_traceback_roundtrip Sample.sample_ctx Sample.value_error
           ["Traceback (most recent call last):"; "ValueError: boom"] _ _ sample_returns).
  - discriminate.
  - repeat constructor.
  - reflexivity.
Defined.

Lemma handle_exception_traceback_trailing_witness :
  last (split_nl (format_exc Sample.sample_ctx_nl 10)) = Some "".
Proof.
  apply (handle_exception_traceback_trailing Sample.sample_ctx_nl Sample.value_error
           ("Traceback (most recent call last):" +:+ String nl "ValueError: boom")
           _ _ sample_nl_returns).
  reflexivity.
Defined.

Lemma alert_carries_response_witness :
  is_status_500 (resolved_code Sample.value_error)
  /\ json (request Sample.alert_down_ctx) = Ok None.
Proof.
  destruct (alert_carries_response Sample.alert_down_ctx Sample.value_error
              (url (request Sample.alert_down_ctx)) (args (request Sample.alert_down_ctx))
              None (exc_repr Sample.value_error)
              (split_nl (format_exc Sample.alert_down_ctx 10)))
    as (_ & _ & Hjson & _ & _ & H500 & _).
  { right. left. reflexivity. }
  by split.
Defined.

Lemma JsonEncoder_default_total_witness :
  JsonEncoder_default (VDatetime Sample.morning) = Ok "2024-03-05 07:08:09".
Proof.
  destruct (JsonEncoder_default_total [] PyNone PyNone "app" (Blueprint := unit))
    as (Hdatetime & _).
  rewrite (Hdatetime Sample.morning); [reflexivity|].
  unfold in_range. simpl. lia.
Defined.

Lemma valid_midnight : valid_time (datetime_timetuple Sample.midnight).
Proof. unfold valid_time. simpl. lia. Qed.
Lemma valid_march_5 : valid_time (date_timetuple Sample.march_5).
Proof. unfold valid_time. simpl. lia. Qed.


Lemma JsonEncoder_date_as_midnight_witness :
  JsonEncoder_default (VDate Sample.march_5) = JsonEncoder_default (VDatetime Sample.midnight).
Proof.
  apply (JsonEncoder_date_as_midnight Sample.march_5 Sample.midnight
           valid_march_5 valid_midnight).
  repeat split.
Defined.

End AppFacts.

(** ** Query models *)

Module QueryModelFacts.
Import QueryModel.

Section Facts.

Context {ApiDataType Location ParseFunc MockFunc : Type}.

Abbreviation Field := (Field ApiDataType MockFunc).
Abbreviation QueryField := (QueryField ApiDataType Location ParseFunc MockFunc).
Abbreviation QueryModelClass := (QueryModelClass ApiDataType Location ParseFunc MockFunc).
Abbreviation BaseQueryModel := (BaseQueryModel ApiDataType Location ParseFunc MockFunc).
Abbreviation Argument := (Argument Location ParseFunc).

Variable Field___init__ :
  ApiDataType -> option MockFunc -> list PyVal -> string -> bool -> Field.
Variable BaseModel___init__ :
  QueryModelClass -> bool -> Kwargs -> result (gmap string PyVal).
Variable RequestParser_parse_args : list Argument -> result Kwargs.

(** *** Enumeration checks *)

Lemma tuple_truthy_true (t : list PyVal) : tuple_truthy t = true <-> t <> [].
Proof. destruct t; simpl; split; done. Qed.

Lemma is_None_true (v : PyVal) : is_None v = true <-> v = PyNone.
Proof. destruct v; simpl; split; done. Qed.

(** One turn of the loop of lines 40-44 raises exactly on a violation. *)
Lemma check_enum_values_cons (field : QueryField) (rest : list QueryField) (parsed : Kwargs) :
  (violates parsed field /\
   check_enum_values (field :: rest) parsed
   = Raise (InvalidArgumentException (name field) (enum_values field)))
  \/ (~ violates parsed field /\
      check_enum_values (field :: rest) parsed = check_enum_values rest parsed).
Proof.
  unfold violates. simpl.
  destruct (tuple_truthy (enum_values field)) eqn:Htruthy.
  - apply tuple_truthy_true in Htruthy.
    destruct (parsed !! name field) as [value|] eqn:Hlookup.
    + destruct (is_None value) eqn:Hnone; simpl.
      * apply is_None_true in Hnone. right. split; [|done].
        intros (_ & v & [= <-] & Hv & _). done.
      * destruct (py_in value (enum_values field)) eqn:Hin; simpl.
        -- right. split; [|done]. intros (_ & v & [= <-] & _ & Hv). congruence.
        -- left. split; [|done]. split; [done|]. exists value.
           split; [done|]. split; [|done]. intros ->. done.
    + right. split; [|done]. intros (_ & v & [=] & _).
  - right. split; [|done]. intros (Hne & _).
    apply tuple_truthy_true in Hne. congruence.
Qed.

(** The loop passes exactly when no declared field is violated. *)
Lemma check_enum_values_Ok (fields : list QueryField) (parsed : Kwargs) :
  check_enum_values fields parsed = Ok tt
  <-> forall field, In field fields -> ~ violates parsed field.
Proof.
  induction fields as [|field rest IH].
  - simpl. split; [by intros _ ? []|done].
  - destruct (check_enum_values_cons field rest parsed) as [[Hv ->]|[Hv ->]].
    + split; [discriminate|]. intros Hall. destruct (Hall field); [by left|done].
    + rewrite IH. split.
      * intros Hall f [<-|Hin]; [done|by apply Hall].
      * intros Hall f Hin. apply Hall. by right.
Qed.

(** Otherwise it raises [InvalidArgumentException], for a violated field. *)
Lemma check_enum_values_Raise (fields : list QueryField) (parsed : Kwargs) :
  (exists field, In field fields /\ violates parsed field)
  -> exists field, In field fields /\ violates parsed field /\
       check_enum_values fields parsed
       = Raise (InvalidArgumentException (name field) (enum_values field)).
Proof.
  induction fields as [|field rest IH]; intros (f & Hin & Hv); [by destruct Hin|].
  destruct (check_enum_values_cons field rest parsed) as [[Hv' Heq]|[Hv' Heq]].
  - exists field. split; [by left|]. done.
  - destruct Hin as [<-|Hin]; [done|].
    destruct IH as (f' & Hin' & Hv'' & Heq'); [by exists f|].
    exists f'. split; [by right|]. split; [done|]. by rewrite Heq.
Qed.

(** The loop never raises anything else. *)
Lemma check_enum_values_exn (fields : list QueryField) (parsed : Kwargs) (e : exn) :
  check_enum_values fields parsed = Raise e
  -> exists field, In field fields /\ violates parsed field /\
       e = InvalidArgumentException (name field) (enum_values field).
Proof.
  induction fields as [|field rest IH]; [done|].
  destruct (check_enum_values_cons field rest parsed) as [[Hv ->]|[Hv ->]].
  - intros [= <-]. exists field. split; [by left|done].
  - intros Hraise. destruct (IH Hraise) as (f & Hin & Hvf & ->).
    exists f. split; [by right|done].
Qed.

(** *** The constructor *)

Lemma delattr_Ok (attrs attrs' : gmap string PyVal) (n : string) :
  delattr attrs n = Ok attrs' -> is_Some (attrs !! n) /\ attrs' = delete n attrs.
Proof.
  unfold delattr. destruct (attrs !! n) as [v|]; [|done].
  intros [= <-]. split; [by exists v|done].
Qed.

(** What the loop of lines 27-29 leaves of the instance attributes: a name
    it visits that is no key of the storage is gone, a key of the storage
    keeps its attribute, and nothing is added. *)
Lemma delete_missing_Ok (names : list string) (storage : Kwargs) :
  forall attrs attrs' : gmap string PyVal,
  delete_missing names storage attrs = Ok attrs' ->
  (forall n, In n names -> storage !! n = None -> attrs' !! n = None)
  /\ (forall n, is_Some (storage !! n) -> attrs' !! n = attrs !! n)
  /\ (forall n, ~ In n names -> attrs' !! n = attrs !! n)
  /\ attrs' ⊆ attrs.
Proof.
  induction names as [|m rest IH]; intros attrs attrs'; simpl.
  - intros [= <-]. by repeat split.
  - case_bool_decide as Hkey.
    + intros Hrest. destruct (IH _ _ Hrest) as (Hgone & Hkept & Hother & Hsub).
      repeat split; try done.
      * intros n [<-|Hin] Hnone; [|by apply Hgone].
        rewrite Hnone in Hkey. by destruct Hkey.
      * intros n Hn. apply Hother. tauto.
    + destruct (delattr attrs m) as [attrs1|e] eqn:Hdel; [|done]. simpl.
      apply delattr_Ok in Hdel as [_ ->].
      intros Hrest. destruct (IH _ _ Hrest) as (Hgone & Hkept & Hother & Hsub).
      repeat split.
      * intros n [<-|Hin] Hnone; [|by apply Hgone].
        eapply lookup_weaken_None; [apply lookup_delete_eq|done].
      * intros n Hn. rewrite Hkept by done. apply lookup_delete_ne.
        intros ->. done.
      * intros n Hn. rewrite Hother by tauto. apply lookup_delete_ne.
        intros ->. apply Hn. by left.
      * etrans; [done|]. apply delete_subseteq.
Qed.

(** The loop runs to its end when the names are distinct and each of them
    is a key of the storage or bound on the instance. *)
Lemma delete_missing_total (names : list string) (storage : Kwargs) :
  forall attrs : gmap string PyVal,
  NoDup names ->
  (forall n, In n names -> storage !! n = None -> is_Some (attrs !! n)) ->
  exists attrs', delete_missing names storage attrs = Ok attrs'.
Proof.
  induction names as [|m rest IH]; intros attrs Hnodup Hbound; simpl; [by eexists|].
  apply NoDup_cons in Hnodup as [Hm Hnodup].
  case_bool_decide as Hkey.
  - apply IH; [done|]. intros n Hin. apply Hbound. by right.
  - assert (storage !! m = None) as Hnone.
    { destruct (storage !! m) eqn:E; [|done]. destruct Hkey. by eexists. }
    unfold delattr. destruct (Hbound m (or_introl eq_refl) Hnone) as [v ->]. simpl.
    apply IH; [done|]. intros n Hin Hn.
    rewrite lookup_delete_ne.
    + apply Hbound; [by right|done].
    + intros ->. apply Hm. by apply list_elem_of_In.
Qed.

Lemma BaseQueryModel_init_Ok (cls : QueryModelClass) (kwargs : Kwargs) (self : BaseQueryModel) :
  BaseQueryModel___init__ BaseModel___init__ cls kwargs = Ok self ->
  exists attrs,
    BaseModel___init__ cls false kwargs = Ok attrs
    /\ delete_missing (map fst (__fields_map__ cls)) kwargs attrs = Ok (attributes self)
    /\ __storage__ self = kwargs /\ __class__ self = cls.
Proof.
  unfold BaseQueryModel___init__.
  destruct (BaseModel___init__ cls false kwargs) as [attrs|e]; [|done]. simpl.
  destruct (delete_missing _ kwargs attrs) as [attrs'|e] eqn:Hdel; [|done]. simpl.
  intros [= <-]. exists attrs. by repeat split.
Qed.

(** The constructor returns an instance once the base initialiser has bound
    the declared fields that are no keyword argument. *)
Lemma BaseQueryModel_init_total (cls : QueryModelClass) (kwargs : Kwargs)
    (attrs : gmap string PyVal) :
  BaseModel___init__ cls false kwargs = Ok attrs ->
  NoDup (map fst (__fields_map__ cls)) ->
  (forall n, In n (map fst (__fields_map__ cls)) -> kwargs !! n = None -> is_Some (attrs !! n)) ->
  exists self,
    BaseQueryModel___init__ BaseModel___init__ cls kwargs = Ok self
    /\ __storage__ self = kwargs /\ __class__ self = cls.
Proof.
  intros Hbase Hnodup Hbound. unfold BaseQueryModel___init__. rewrite Hbase. simpl.
  destruct (delete_missing_total _ kwargs attrs Hnodup Hbound) as [attrs' ->]. simpl.
  eexists. by repeat split.
Qed.

(** C8: an instance built from the keyword arguments [kwargs] keeps them as
    its [__storage__]: [as_dict()] returns [kwargs], [item in self] holds
    exactly for the keys of [kwargs], [get(item, default)] returns the value
    under [item] or else [default], and every declared field name that is no
    key of [kwargs] has no attribute on the instance.  The three methods only
    read the instance. *)
Theorem BaseQueryModel_storage (cls : QueryModelClass) (kwargs : Kwargs)
    (self : BaseQueryModel) :
  BaseQueryModel___init__ BaseModel___init__ cls kwargs = Ok self ->
  __storage__ self = kwargs
  /\ as_dict self = kwargs
  /\ (forall item, __contains__ self item = true <-> item ∈ dom kwargs)
  /\ (forall item default v, kwargs !! item = Some v -> get self item default = v)
  /\ (forall item default, item ∉ dom kwargs -> get self item default = default)
  /\ (forall field_name,
        In field_name (map fst (__fields_map__ cls)) -> field_name ∉ dom kwargs ->
        attributes self !! field_name = None).
Proof.
  intros Hinit.
  destruct (BaseQueryModel_init_Ok _ _ _ Hinit) as (attrs & _ & Hdel & Hstorage & _).
  destruct (delete_missing_Ok _ _ _ _ Hdel) as (Hgone & _).
  unfold as_dict, __contains__, get. rewrite Hstorage.
  split; [done|]. split; [done|]. split.
  { intros item. rewrite bool_decide_eq_true. by rewrite elem_of_dom. }
  split.
  { by intros item d v ->. }
  split.
  { intros item d Hitem. apply not_elem_of_dom in Hitem. by rewrite Hitem. }
  intros n Hin Hn. apply Hgone; [done|]. by apply not_elem_of_dom.
Qed.

(** *** Registration with the parser *)

(** The keys of a dictionary, as the loop over its items meets them. *)
Lemma keys_map_to_list (kw : Kwargs) (k : string) :
  In k (map fst (map_to_list kw)) <-> is_Some (kw !! k).
Proof.
  rewrite in_map_iff. split.
  - intros ([k' v] & <- & Hin). apply list_elem_of_In, elem_of_map_to_list in Hin.
    by exists v.
  - intros [v Hv]. exists (k, v). split; [done|].
    by apply list_elem_of_In, elem_of_map_to_list.
Qed.

Lemma explicit_not_argument (k : string) :
  In k explicit_keywords -> ~ In k argument_keywords.
Proof.
  intros [<-|[<-|[<-|[<-|[]]]]] Hin;
    repeat (destruct Hin as [Hin|Hin]; [discriminate Hin|]); done.
Qed.

(** The call is accepted exactly when every key of [kw] is one of the
    keywords [Argument.__init__] takes besides those the call passes. *)
Lemma add_argument_cases (parser : list Argument) (field : QueryField) (kw : Kwargs) :
  ((forall k, is_Some (kw !! k) -> In k argument_keywords)
   /\ add_argument parser (name field) (parse_func field) (location field)
        (required field) (nullable field) kw
      = Ok (parser ++ [argument_of field kw]))
  \/ (~ (forall k, is_Some (kw !! k) -> In k argument_keywords)
      /\ exists msg,
           add_argument parser (name field) (parse_func field) (location field)
             (required field) (nullable field) kw
           = Raise (TypeError msg)).
Proof.
  unfold add_argument.
  destruct (existsb _ explicit_keywords) eqn:Hexplicit.
  - right. apply existsb_exists in Hexplicit as (k & Hin & Hk).
    apply bool_decide_eq_true in Hk. split; [|by eexists].
    intros Hall. by apply (explicit_not_argument k Hin), Hall.
  - destruct (forallb _ (map fst (map_to_list kw))) eqn:Hkeys.
    + left. split; [|done]. intros k Hk. apply keys_map_to_list in Hk.
      rewrite forallb_forall in Hkeys. specialize (Hkeys k Hk).
      by apply bool_decide_eq_true in Hkeys.
    + right. split; [|by eexists]. intros Hall.
      assert (forallb (fun k => bool_decide (In k argument_keywords))
                (map fst (map_to_list kw)) = true) as Htrue; [|congruence].
      apply forallb_forall. intros k Hk. apply bool_decide_eq_true, Hall.
      by apply keys_map_to_list.
Qed.

Lemma add_argument_Ok (parser parser' : list Argument) (field : QueryField) (kw : Kwargs) :
  add_argument parser (name field) (parse_func field) (location field)
    (required field) (nullable field) kw = Ok parser'
  -> parser' = parser ++ [argument_of field kw].
Proof.
  destruct (add_argument_cases parser field kw) as [[_ ->]|[_ [msg ->]]]; [|done].
  by intros [= <-].
Qed.

(** When the loop of lines 35-37 runs to its end, every declared field had
    an attribute [kwargs], and the parser holds one argument per declared
    field, in order, made of the field's name, [parse_func], location,
    [required], [nullable] and that attribute. *)
Lemma add_arguments_Ok (fields : list QueryField) :
  forall parser parser' : list Argument,
  add_arguments fields parser = Ok parser' ->
  Forall (fun field : QueryField => is_Some (kwargs field)) fields
  /\ parser' = parser ++ map (fun field : QueryField =>
                               argument_of field (keyword ∅ (kwargs field))) fields.
Proof.
  induction fields as [|field rest IH]; intros parser parser'; simpl.
  - intros [= <-]. by rewrite app_nil_r.
  - unfold getattr_kwargs. destruct (kwargs field) as [kw|] eqn:Hkw; [|done]. simpl.
    destruct (add_argument parser _ _ _ _ _ kw) as [parser1|e] eqn:Hadd; [|done]. simpl.
    apply add_argument_Ok in Hadd as ->.
    intros Hrest. destruct (IH _ _ Hrest) as [Hall ->].
    split; [constructor; [by eexists|done]|].
    by rewrite <- app_assoc.
Qed.

(** [QueryField.__init__] keeps the extra keywords under [parser_kwargs];
    the attribute [kwargs] is as the base initialiser leaves it. *)
Lemma QueryField_init_parser_kwargs (field_type : ApiDataType) (location : Location)
    (parser_func : option ParseFunc) (required : option bool) (mock_func : option MockFunc)
    (enum_values : option (list PyVal)) (comment : option string) (nullable : option bool)
    (kw : Kwargs) :
  let field := QueryField___init__ Field___init__ field_type location parser_func required
                 mock_func enum_values comment nullable kw in
  parser_kwargs field = kw
  /\ kwargs field = kwargs (Field___init__ field_type mock_func (keyword [] enum_values)
                             (keyword "" comment) (keyword true nullable)).
Proof. done. Qed.

(** C4, as the code has it: [parse_args] reads the extra keywords of a field
    from an attribute [kwargs], which [QueryField.__init__] never binds (it
    binds [parser_kwargs]); on a class whose first declared field has no such
    attribute the call raises [AttributeError] before anything is registered
    or parsed. *)
Theorem parse_args_unbound_kwargs (cls : QueryModelClass) (field : QueryField)
    (rest : list QueryField) :
  __fields__ cls = field :: rest ->
  kwargs field = None ->
  add_arguments (__fields__ cls) [] = Raise (AttributeError "kwargs")
  /\ parse_args BaseModel___init__ RequestParser_parse_args cls
     = Raise (AttributeError "kwargs").
Proof.
  intros Hfields Hunbound. unfold parse_args. rewrite Hfields. simpl.
  unfold getattr_kwargs. by rewrite Hunbound.
Qed.

(** *** [parse_args] after a successful parse *)

(** C1: on a request that the parser has parsed into [parsed], [parse_args]
    raises [InvalidArgumentException] as soon as some declared field with a
    non-empty [enum_values] has a parsed value that is neither [None] nor a
    member of the tuple; when no declared field is in that case the
    enumeration check raises nothing and [parse_args] returns what the
    constructor makes of [parsed], an instance whenever the constructor
    builds one. *)
Theorem parse_args_enum_validation (cls : QueryModelClass) (parser : list Argument)
    (parsed : Kwargs) :
  add_arguments (__fields__ cls) [] = Ok parser ->
  RequestParser_parse_args parser = Ok parsed ->
  ((exists field, In field (__fields__ cls) /\ violates parsed field) ->
   exists field, In field (__fields__ cls) /\ violates parsed field /\
     parse_args BaseModel___init__ RequestParser_parse_args cls
     = Raise (InvalidArgumentException (name field) (enum_values field)))
  /\ ((forall field, In field (__fields__ cls) -> ~ violates parsed field) ->
      check_enum_values (__fields__ cls) parsed = Ok tt
      /\ parse_args BaseModel___init__ RequestParser_parse_args cls
         = BaseQueryModel___init__ BaseModel___init__ cls parsed
      /\ forall attrs,
           BaseModel___init__ cls false parsed = Ok attrs ->
           NoDup (map fst (__fields_map__ cls)) ->
           (forall n, In n (map fst (__fields_map__ cls)) ->
                      parsed !! n = None -> is_Some (attrs !! n)) ->
           exists self,
             parse_args BaseModel___init__ RequestParser_parse_args cls = Ok self
             /\ __storage__ self = parsed /\ __class__ self = cls).
Proof.
  intros Hadd Hparse. unfold parse_args. rewrite Hadd. simpl. rewrite Hparse. simpl.
  split.
  - intros Hviol.
    destruct (check_enum_values_Raise _ _ Hviol) as (field & Hin & Hv & ->).
    by exists field.
  - intros Hfine. apply check_enum_values_Ok in Hfine as Hcheck.
    rewrite Hcheck. simpl. split; [done|]. split; [done|].
    intros attrs Hbase Hnodup Hbound.
    by apply (BaseQueryModel_init_total cls parsed attrs).
Qed.

(** [NoArgs] declares nothing: its [parse_args] registers nothing, checks
    nothing, and stores whatever the parser returns. *)
Lemma parse_args_NoArgs :
  parse_args BaseModel___init__ RequestParser_parse_args NoArgs
  = (parsed <- RequestParser_parse_args [] ;;
     attrs <- BaseModel___init__ NoArgs false parsed ;;
     Ok {| __class__ := NoArgs; attributes := attrs; __storage__ := parsed |}).
Proof.
  unfold parse_args, BaseQueryModel___init__. simpl.
  destruct (RequestParser_parse_args []) as [parsed|e]; [|done]. simpl.
  by destruct (BaseModel___init__ NoArgs false parsed).
Qed.

(** *** Field construction *)

(** C5: a [QueryField] built without the [required] and [nullable] keywords
    has [required] false and [nullable] true, the base initialiser storing
    the [nullable] it is handed; its [default] slot is set exactly when a
    [default] keyword is supplied, and then to the value supplied. *)
Theorem QueryField_init_defaults (field_type : ApiDataType) (location : Location)
    (parser_func : option ParseFunc) (mock_func : option MockFunc)
    (enum_values : option (list PyVal)) (comment : option string) (kw : Kwargs) :
  (forall ft mf ev c n, nullable (Field___init__ ft mf ev c n) = n) ->
  let field := QueryField___init__ Field___init__ field_type location parser_func None
                 mock_func enum_values comment None kw in
  required field = false
  /\ nullable field = true
  /\ (is_Some (default field) <-> "default" ∈ dom kw)
  /\ (forall v, kw !! "default" = Some v -> default field = Some v)
  /\ ("default" ∉ dom kw -> default field = None).
Proof.
  intros Hbase. cbv zeta. unfold QueryField___init__. simpl.
  split; [done|]. split; [apply Hbase|]. split; [by rewrite elem_of_dom|].
  split; [done|]. apply not_elem_of_dom.
Qed.

(** *** [__str__] *)

Lemma module_globals_pprint : module_globals !! "pprint" = None.
Proof. reflexivity. Qed.

(** C9: [__str__] raises [NameError] on every instance: the module binds no
    name [pprint], so unless the builtins do, the lookup fails before
    anything is formatted, and no call returns a string. *)
Theorem str_raises_NameError (builtins : gmap string GlobalObj)
    (pformat : Kwargs -> nat -> string) (self : BaseQueryModel) :
  builtins !! "pprint" = None ->
  __str__ builtins pformat self = Raise (NameError "pprint")
  /\ forall s, __str__ builtins pformat self <> Ok s.
Proof.
  intros Hbuiltins.
  assert (__str__ builtins pformat self = Raise (NameError "pprint")) as Hraise.
  { unfold __str__, load_global. rewrite module_globals_pprint, Hbuiltins. done. }
  split; [done|]. intros s. by rewrite Hraise.
Qed.

(** *** More on registration *)

(** One turn of the registration loop. *)
Lemma add_arguments_cons (field : QueryField) (rest : list QueryField) (parser : list Argument) :
  (registrable field /\
   add_arguments (field :: rest) parser
   = add_arguments rest (parser ++ [argument_of field (keyword ∅ (kwargs field))]))
  \/ (~ registrable field /\ kwargs field = None /\
      add_arguments (field :: rest) parser = Raise (AttributeError "kwargs"))
  \/ (~ registrable field /\ is_Some (kwargs field) /\
      exists msg, add_arguments (field :: rest) parser = Raise (TypeError msg)).
Proof.
  simpl. unfold getattr_kwargs, registrable.
  destruct (kwargs field) as [kw|] eqn:Hkw; simpl.
  - destruct (add_argument_cases parser field kw) as [[Hall ->]|[Hnot [msg ->]]]; simpl.
    + left. split; [|done]. by exists kw.
    + right. right. split; [|split; [by eexists|by exists msg]].
      intros (kw' & [= <-] & Hall). done.
  - right. left. split; [|done]. by intros (kw & ? & _).
Qed.

(** X12: the registration loop runs to its end exactly when every declared
    field carries an attribute [kwargs] whose keys are all keywords that
    [Argument.__init__] takes and the call does not pass itself; the parser
    then holds, after the arguments it had, one argument per declared field,
    in declaration order. *)
Theorem add_arguments_iff (fields : list QueryField) (parser parser' : list Argument) :
  add_arguments fields parser = Ok parser'
  <-> Forall registrable fields
      /\ parser' = parser ++ map (fun field : QueryField =>
                                   argument_of field (keyword ∅ (kwargs field))) fields.
Proof.
  revert parser. induction fields as [|field rest IH]; intros parser.
  - simpl. rewrite app_nil_r. split.
    + by intros [= <-].
    + by intros [_ ->].
  - destruct (add_arguments_cons field rest parser)
      as [[Hreg ->]|[(Hnot & _ & ->)|(Hnot & _ & msg & ->)]].
    + rewrite IH. simpl. rewrite <- app_assoc. simpl. split.
      * intros [Hall ->]. split; [by constructor|done].
      * intros [Hall ->]. apply Forall_cons in Hall as [_ Hall]. done.
    + split; [done|]. intros [Hall _]. by apply Forall_cons in Hall as [? _].
    + split; [done|]. intros [Hall _]. by apply Forall_cons in Hall as [? _].
Qed.

(** X13: registration stops at the first declared field it cannot register:
    with [AttributeError] when that field has no attribute [kwargs], with
    [TypeError] when its [kwargs] holds a key the call cannot take; the
    fields after it play no part. *)
Theorem add_arguments_first_failure (before after : list QueryField) (field : QueryField)
    (parser : list Argument) :
  Forall registrable before ->
  ~ registrable field ->
  (kwargs field = None ->
   add_arguments (before ++ field :: after) parser = Raise (AttributeError "kwargs"))
  /\ (is_Some (kwargs field) ->
      exists msg,
        add_arguments (before ++ field :: after) parser = Raise (TypeError msg)).
Proof.
  revert parser. induction before as [|f before IH]; intros parser Hbefore Hfield.
  - simpl app.
    destruct (add_arguments_cons field after parser)
      as [[Hreg _]|[(_ & Hnone & ->)|(_ & Hsome & msg & ->)]]; [done|..].
    + split; [done|]. rewrite Hnone. by intros [? ?].
    + split; [|by exists msg]. intros Hnone. rewrite Hnone in Hsome. by destruct Hsome.
  - apply Forall_cons in Hbefore as [Hf Hbefore].
    change ((f :: before) ++ field :: after) with (f :: (before ++ field :: after)).
    destruct (add_arguments_cons f (before ++ field :: after) parser)
      as [[_ ->]|[(Hnot & _)|(Hnot & _)]]; [by apply IH|done..].
Qed.

(** *** More on the enumeration check *)

(** X14: the exception names the first violated field in declaration order,
    with that field's tuple, whatever comes after it. *)
Theorem check_enum_values_first (before after : list QueryField) (field : QueryField)
    (parsed : Kwargs) :
  (forall f, In f before -> ~ violates parsed f) ->
  violates parsed field ->
  check_enum_values (before ++ field :: after) parsed
  = Raise (InvalidArgumentException (name field) (enum_values field)).
Proof.
  induction before as [|f before IH]; intros Hbefore Hfield.
  - simpl app.
    by destruct (check_enum_values_cons field after parsed) as [[_ ->]|[Hno _]].
  - change ((f :: before) ++ field :: after) with (f :: (before ++ field :: after)).
    destruct (check_enum_values_cons f (before ++ field :: after) parsed)
      as [[Hv _]|[_ ->]].
    + destruct (Hbefore f); [by left|done].
    + apply IH; [|done]. intros f' Hin. apply Hbefore. by right.
Qed.

(** X15: the enumeration check reads only the name and the [enum_values] of
    each field: lists of fields that agree on these give the same outcome,
    whatever their [required], [nullable], [default] and other slots. *)
Theorem check_enum_values_ext (fields fields' : list QueryField) (parsed : Kwargs) :
  map (fun f : QueryField => (name f, enum_values f)) fields
  = map (fun f : QueryField => (name f, enum_values f)) fields' ->
  check_enum_values fields parsed = check_enum_values fields' parsed.
Proof.
  revert fields'. induction fields as [|f fields IH]; intros [|f' fields']; try done.
  simpl. intros [= Hname Henum Hrest].
  rewrite Hname, Henum, (IH fields' Hrest). done.
Qed.

(** X16: an instance that [parse_args] returns stores exactly the namespace
    the parser produced from one argument per declared field, belongs to the
    class, and violates no enumeration: every stored value of a field with a
    non-empty [enum_values] is [None] or a member. *)
Theorem parse_args_Ok (cls : QueryModelClass) (self : BaseQueryModel) :
  parse_args BaseModel___init__ RequestParser_parse_args cls = Ok self ->
  exists parser parsed,
    add_arguments (__fields__ cls) [] = Ok parser
    /\ length parser = length (__fields__ cls)
    /\ RequestParser_parse_args parser = Ok parsed
    /\ as_dict self = parsed
    /\ __class__ self = cls
    /\ forall field, In field (__fields__ cls) -> ~ violates (as_dict self) field.
Proof.
  unfold parse_args.
  destruct (add_arguments (__fields__ cls) []) as [parser|e] eqn:Hadd; [|done]. simpl.
  destruct (RequestParser_parse_args parser) as [parsed|e] eqn:Hparse; [|done]. simpl.
  destruct (check_enum_values (__fields__ cls) parsed) as [[]|e] eqn:Hcheck; [|done]. simpl.
  intros Hinit.
  destruct (BaseQueryModel_init_Ok _ _ _ Hinit) as (attrs & _ & _ & Hstorage & Hcls).
  exists parser, parsed. split; [done|].
  destruct (add_arguments_Ok _ _ _ Hadd) as [_ ->].
  split; [by rewrite length_app, length_map|].
  split; [done|]. unfold as_dict. rewrite Hstorage. split; [done|]. split; [done|].
  by apply check_enum_values_Ok.
Qed.

(** *** More on the constructor *)

Lemma delete_missing_bound (names : list string) (storage : Kwargs) :
  forall attrs attrs' : gmap string PyVal,
  delete_missing names storage attrs = Ok attrs' ->
  forall n, In n names -> storage !! n = None -> is_Some (attrs !! n).
Proof.
  induction names as [|m rest IH]; intros attrs attrs'; simpl; [done|].
  case_bool_decide as Hkey.
  - intros Hrest n [<-|Hin] Hn; [|by eapply IH].
    rewrite Hn in Hkey. by destruct Hkey.
  - destruct (delattr attrs m) as [attrs1|e] eqn:Hdel; [|done]. simpl.
    apply delattr_Ok in Hdel as [Hm ->].
    intros Hrest n [<-|Hin] Hn; [done|].
    destruct (IH _ _ Hrest n Hin Hn) as [v Hv].
    apply lookup_delete_Some in Hv as [_ Hv]. by exists v.
Qed.

Lemma delete_missing_exn (names : list string) (storage : Kwargs) :
  forall (attrs : gmap string PyVal) (e : exn),
  delete_missing names storage attrs = Raise e ->
  exists n, In n names /\ storage !! n = None /\ e = AttributeError n.
Proof.
  induction names as [|m rest IH]; intros attrs e; simpl; [done|].
  case_bool_decide as Hkey.
  - intros Hrest. destruct (IH _ _ Hrest) as (n & Hin & Hn & ->).
    exists n. split; [by right|done].
  - assert (storage !! m = None) as Hnone.
    { destruct (storage !! m) eqn:E; [|done]. destruct Hkey. by eexists. }
    unfold delattr. destruct (attrs !! m) as [v|] eqn:Hm; simpl.
    + intros Hrest. destruct (IH _ _ Hrest) as (n & Hin & Hn & ->).
      exists n. split; [by right|done].
    + intros [= <-]. exists m. split; [by left|done].
Qed.

(** X17: with distinct declared names, the constructor returns an instance
    exactly when the base initialiser has bound every declared field that is
    no keyword argument; when it fails instead, it is with [AttributeError]
    for such a field. *)
Theorem BaseQueryModel_init_iff (cls : QueryModelClass) (kwargs : Kwargs)
    (attrs : gmap string PyVal) :
  BaseModel___init__ cls false kwargs = Ok attrs ->
  NoDup (map fst (__fields_map__ cls)) ->
  ((exists self, BaseQueryModel___init__ BaseModel___init__ cls kwargs = Ok self)
   <-> forall n, In n (map fst (__fields_map__ cls)) -> kwargs !! n = None ->
                 is_Some (attrs !! n))
  /\ (forall e, BaseQueryModel___init__ BaseModel___init__ cls kwargs = Raise e ->
      exists n, In n (map fst (__fields_map__ cls)) /\ kwargs !! n = None
                /\ e = AttributeError n).
Proof.
  intros Hbase Hnodup. split; [split|].
  - intros [self Hself].
    destruct (BaseQueryModel_init_Ok _ _ _ Hself) as (attrs0 & Hbase0 & Hdel & _).
    rewrite Hbase in Hbase0. injection Hbase0 as <-.
    by apply (delete_missing_bound _ _ _ _ Hdel).
  - intros Hbound.
    destruct (BaseQueryModel_init_total cls kwargs attrs Hbase Hnodup Hbound)
      as (self & Hself & _).
    by exists self.
  - unfold BaseQueryModel___init__. rewrite Hbase. simpl.
    destruct (delete_missing _ kwargs attrs) as [attrs'|e'] eqn:Hdel; [done|]. simpl.
    intros e [= <-]. by apply (delete_missing_exn _ _ _ _ Hdel).
Qed.

(** X18: the constructor only removes: an attribute named by a keyword
    argument, or by no declared field, is as the base initialiser left it,
    nothing is added, and an attribute is missing afterwards exactly when it
    was missing before or names a declared field that is no keyword
    argument. *)
Theorem BaseQueryModel_init_keeps (cls : QueryModelClass) (kwargs : Kwargs)
    (attrs : gmap string PyVal) (self : BaseQueryModel) :
  BaseModel___init__ cls false kwargs = Ok attrs ->
  BaseQueryModel___init__ BaseModel___init__ cls kwargs = Ok self ->
  (forall n, n ∈ dom kwargs -> attributes self !! n = attrs !! n)
  /\ (forall n, ~ In n (map fst (__fields_map__ cls)) -> attributes self !! n = attrs !! n)
  /\ attributes self ⊆ attrs
  /\ forall n, attributes self !! n = None
               <-> attrs !! n = None
                   \/ (In n (map fst (__fields_map__ cls)) /\ n ∉ dom kwargs).
Proof.
  intros Hbase Hself.
  destruct (BaseQueryModel_init_Ok _ _ _ Hself) as (attrs0 & Hbase0 & Hdel & _).
  rewrite Hbase in Hbase0. injection Hbase0 as <-.
  destruct (delete_missing_Ok _ _ _ _ Hdel) as (Hgone & Hkept & Hother & Hsub).
  split; [intros n Hn; apply Hkept; by apply elem_of_dom|].
  split; [done|]. split; [done|].
  intros n. split.
  - intros Hnone.
    destruct (decide (n ∈ dom kwargs)) as [Hin|Hout].
    { left. rewrite <- Hkept; [done|by apply elem_of_dom]. }
    destruct (in_dec string_dec n (map fst (__fields_map__ cls))) as [Hdecl|Hundecl].
    + by right.
    + left. by rewrite <- Hother.
  - intros [Hnone|[Hdecl Hout]].
    + by eapply lookup_weaken_None.
    + apply Hgone; [done|]. by apply not_elem_of_dom.
Qed.

(** [QueryField.__init__] stores [required], [nullable], [location]
    and [parser_func] as passed and keeps all extra keywords in
    [parser_kwargs]; a [default] keyword is copied to the [default] slot, not
    taken out, so the slot always equals [parser_kwargs.get('default')]. *)
Theorem QueryField_init_stores (field_type : ApiDataType) (location : Location)
    (parser_func : option ParseFunc) (required nullable : bool)
    (mock_func : option MockFunc) (enum_values : option (list PyVal))
    (comment : option string) (kw : Kwargs) :
  (forall ft mf ev c n, QueryModel.nullable (Field___init__ ft mf ev c n) = n) ->
  let field := QueryField___init__ Field___init__ field_type location parser_func
                 (Some required) mock_func enum_values comment (Some nullable) kw in
  QueryModel.required field = required
  /\ QueryModel.nullable field = nullable
  /\ QueryModel.location field = location
  /\ parse_func field = parser_func
  /\ parser_kwargs field = kw
  /\ default field = parser_kwargs field !! "default".
Proof. intros Hbase. cbv zeta. simpl. by rewrite Hbase. Qed.

End Facts.

(** *** The sample query model *)

Lemma sample_add_arguments :
  add_arguments (__fields__ Sample.BoundSortQuery) [] = Ok Sample.sort_parser.
Proof. vm_compute. reflexivity. Qed.

Lemma sample_parse_asc :
  Sample.RequestParser_parse_args Sample.sort_asc Sample.sort_parser = Ok Sample.sort_asc_parsed.
Proof. vm_compute. reflexivity. Qed.

Lemma sample_parse_up :
  Sample.RequestParser_parse_args Sample.sort_up Sample.sort_parser = Ok Sample.sort_up_parsed.
Proof. vm_compute. reflexivity. Qed.

Lemma parse_args_enum_validation_witness :
  (exists self,
     parse_args Sample.BaseModel___init__ (Sample.RequestParser_parse_args Sample.sort_asc)
       Sample.BoundSortQuery = Ok self
     /\ as_dict self !! "sort" = Some (PyStr "asc"))
  /\ parse_args Sample.BaseModel___init__ (Sample.RequestParser_parse_args Sample.sort_up)
       Sample.BoundSortQuery
     = Raise (InvalidArgumentException "sort" [PyStr "asc"; PyStr "desc"]).
Proof.
  split.
  - destruct (parse_args_enum_validation Sample.BaseModel___init__
                 (Sample.RequestParser_parse_args Sample.sort_asc) Sample.BoundSortQuery
                 Sample.sort_parser Sample.sort_asc_parsed
                 sample_add_arguments sample_parse_asc) as [_ Hfine].
    destruct Hfine as (_ & _ & Hinst).
    { intros field [<-|[<-|[]]] (Hne & value & Hlookup & Hnone & Hin).
      - vm_compute in Hlookup. injection Hlookup as <-. vm_compute in Hin. discriminate.
      - exfalso. by apply Hne. }
    destruct (Hinst (<[ "sort" := PyStr "asc" ]> {[ "page" := PyInt 1 ]}))
      as (self & Hself & Hstorage & _).
    { vm_compute. reflexivity. }
    { apply (bool_decide_unpack _). vm_compute. exact I. }
    { intros n [<-|[<-|[]]] Hn; vm_compute in Hn; discriminate. }
    exists self. split; [done|]. unfold as_dict. rewrite Hstorage. vm_compute. reflexivity.
  - destruct (parse_args_enum_validation Sample.BaseModel___init__
                 (Sample.RequestParser_parse_args Sample.sort_up) Sample.BoundSortQuery
                 Sample.sort_parser Sample.sort_up_parsed
                 sample_add_arguments sample_parse_up) as [Hbad _].
    destruct Hbad as (field & Hin & _ & Hraise).
    { exists (Sample.bind_kwargs Sample.sort_field). split; [by left|].
      split; [done|]. exists (PyStr "up"). split; [vm_compute; reflexivity|]. by split. }
    rewrite Hraise. by destruct Hin as [<-|[<-|[]]].
Defined.

Lemma parse_args_unbound_kwargs_witness :
  parse_args Sample.BaseModel___init__ (Sample.RequestParser_parse_args Sample.sort_asc)
    Sample.SortQuery = Raise (AttributeError "kwargs").
Proof.
  apply (parse_args_unbound_kwargs Sample.BaseModel___init__
           (Sample.RequestParser_parse_args Sample.sort_asc) Sample.SortQuery
           Sample.sort_field [Sample.page_field]); reflexivity.
Defined.

Lemma QueryField_init_defaults_witness :
  let field := QueryField___init__ Sample.Field___init__ "INT" "args" (Some "int") None None
                 None None None {[ "default" := PyInt 1 ]} in
  required field = false /\ nullable field = true /\ default field = Some (PyInt 1).
Proof.
  destruct (QueryField_init_defaults Sample.Field___init__ "INT" "args" (Some "int") None
              None None {[ "default" := PyInt 1 ]}) as (Hreq & Hnull & _ & Hdefault & _).
  { reflexivity. }
  split; [exact Hreq|]. split; [exact Hnull|]. apply Hdefault. reflexivity.
Defined.

Lemma BaseQueryModel_storage_witness :
  exists self,
    BaseQueryModel___init__ Sample.BaseModel___init__ Sample.SortQuery Sample.sort_asc = Ok self
    /\ as_dict self = Sample.sort_asc
    /\ get self "sort" PyNone = PyStr "asc"
    /\ get self "page" (PyInt 7) = PyInt 7
    /\ attributes self !! "page" = None.
Proof.
  exists {| __class__ := Sample.SortQuery; attributes := Sample.sort_asc;
            __storage__ := Sample.sort_asc |}.
  assert (BaseQueryModel___init__ Sample.BaseModel___init__ Sample.SortQuery Sample.sort_asc
          = Ok {| __class__ := Sample.SortQuery; attributes := Sample.sort_asc;
                  __storage__ := Sample.sort_asc |}) as Hinit.
  { vm_compute. reflexivity. }
  destruct (BaseQueryModel_storage Sample.BaseModel___init__ _ _ _ Hinit)
    as (_ & Hdict & _ & Hget & Hdefault & Hgone).
  split; [exact Hinit|]. split; [exact Hdict|].
  split; [apply Hget; reflexivity|].
  split; [apply Hdefault; apply not_elem_of_dom; reflexivity|].
  apply Hgone; [right; left; reflexivity|apply not_elem_of_dom; reflexivity].
Defined.

Lemma str_raises_NameError_witness :
  __str__ Sample.builtins (fun _ _ => "{}")
    {| __class__ := Sample.SortQuery; attributes := ∅; __storage__ := ∅ |}
  = Raise (NameError "pprint").
Proof.
  apply (str_raises_NameError Sample.builtins). reflexivity.
Defined.

Lemma sample_registrable : registrable (Sample.bind_kwargs Sample.sort_field).
Proof.
  exists ∅. split; [reflexivity|]. intros k [v Hv]. by rewrite lookup_empty in Hv.
Qed.

Lemma sample_not_registrable : ~ registrable Sample.page_field.
Proof. intros (kw & Hkw & _). discriminate Hkw. Qed.

Lemma add_arguments_first_failure_witness :
  add_arguments [Sample.bind_kwargs Sample.sort_field; Sample.page_field;
                 Sample.bind_kwargs Sample.sort_field] []
  = Raise (AttributeError "kwargs").
Proof.
  apply (add_arguments_first_failure [Sample.bind_kwargs Sample.sort_field]
           [Sample.bind_kwargs Sample.sort_field] Sample.page_field []).
  - constructor; [exact sample_registrable|constructor].
  - exact sample_not_registrable.
  - reflexivity.
Defined.

Lemma sample_violates_up :
  violates Sample.sort_up_parsed (Sample.bind_kwargs Sample.sort_field).
Proof.
  split; [discriminate|]. exists (PyStr "up").
  split; [vm_compute; reflexivity|]. split; [discriminate|reflexivity].
Qed.

Lemma sample_page_fine : ~ violates Sample.sort_up_parsed (Sample.bind_kwargs Sample.page_field).
Proof. intros [Hne _]. by apply Hne. Qed.

Lemma check_enum_values_first_witness :
  check_enum_values [Sample.bind_kwargs Sample.page_field; Sample.bind_kwargs Sample.sort_field;
                     Sample.sort_strict] Sample.sort_up_parsed
  = Raise (InvalidArgumentException "sort" [PyStr "asc"; PyStr "desc"]).
Proof.
  apply (check_enum_values_first [Sample.bind_kwargs Sample.page_field] [Sample.sort_strict]
           (Sample.bind_kwargs Sample.sort_field) Sample.sort_up_parsed).
  - intros f [<-|[]]. exact sample_page_fine.
  - exact sample_violates_up.
Defined.

Lemma check_enum_values_ext_witness :
  check_enum_values [Sample.sort_strict] Sample.sort_none
  = check_enum_values [Sample.sort_field] Sample.sort_none.
Proof.
  apply (check_enum_values_ext [Sample.sort_strict] [Sample.sort_field] Sample.sort_none).
  reflexivity.
Defined.

Lemma sample_parse_args_asc :
  parse_args Sample.BaseModel___init__ (Sample.RequestParser_parse_args Sample.sort_asc)
    Sample.BoundSortQuery
  = Ok {| __class__ := Sample.BoundSortQuery; attributes := Sample.sort_asc_parsed;
          __storage__ := Sample.sort_asc_parsed |}.
Proof. vm_compute. reflexivity. Qed.

Lemma parse_args_Ok_witness :
  ~ violates Sample.sort_asc_parsed (Sample.bind_kwargs Sample.sort_field).
Proof.
  destruct (parse_args_Ok Sample.BaseModel___init__
              (Sample.RequestParser_parse_args Sample.sort_asc) Sample.BoundSortQuery _
              sample_parse_args_asc)
    as (parser & parsed & _ & _ & _ & _ & _ & Hfine).
  apply Hfine. left. reflexivity.
Defined.

Lemma sample_base_init :
  Sample.BaseModel___init__ Sample.SortQuery false Sample.sort_asc = Ok Sample.sort_asc_bound.
Proof. vm_compute. reflexivity. Qed.

Lemma sample_names_NoDup : NoDup (map fst (__fields_map__ Sample.SortQuery)).
Proof. apply (bool_decide_unpack _). vm_compute. exact I. Qed.

Lemma sample_init :
  BaseQueryModel___init__ Sample.BaseModel___init__ Sample.SortQuery Sample.sort_asc
  = Ok {| __class__ := Sample.SortQuery; attributes := Sample.sort_asc;
          __storage__ := Sample.sort_asc |}.
Proof. vm_compute. reflexivity. Qed.

Lemma BaseQueryModel_init_iff_witness :
  exists self,
    BaseQueryModel___init__ Sample.BaseModel___init__ Sample.SortQuery Sample.sort_asc = Ok self.
Proof.
  apply (BaseQueryModel_init_iff Sample.BaseModel___init__ Sample.SortQuery Sample.sort_asc
           Sample.sort_asc_bound sample_base_init sample_names_NoDup).
  intros n [<-|[<-|[]]] Hn.
  - discriminate Hn.
  - by eexists.
Defined.

Lemma BaseQueryModel_init_keeps_witness :
  attributes {| __class__ := Sample.SortQuery; attributes := Sample.sort_asc;
                __storage__ := Sample.sort_asc |} !! "sort"
  = Sample.sort_asc_bound !! "sort".
Proof.
  destruct (BaseQueryModel_init_keeps Sample.BaseModel___init__ Sample.SortQuery
              Sample.sort_asc Sample.sort_asc_bound _ sample_base_init sample_init)
    as (Hkept & _).
  apply Hkept. apply elem_of_dom. by eexists.
Defined.

Lemma QueryField_init_stores_witness :
  let field := QueryField___init__ Sample.Field___init__ "INT" "args" (Some "int")
                 (Some true) None None None (Some false) {[ "default" := PyInt 1 ]} in
  required field = true /\ nullable field = false /\ default field = Some (PyInt 1).
Proof.
  destruct (QueryField_init_stores Sample.Field___init__ "INT" "args" (Some "int")
              true false None None None {[ "default" := PyInt 1 ]})
    as (Hreq & Hnull & _ & _ & _ & Hdefault).
  { reflexivity. }
  split; [exact Hreq|]. split; [exact Hnull|]. rewrite Hdefault. reflexivity.
Defined.

End QueryModelFacts.
